(** * Country directory: the report renderer

    A shallow embedding of [src/renderer.py] (class [Renderer]) and the
    properties of its formatters.

    Text is modelled as [string], the UTF-8 bytes of the Python [str].  The
    literals the program looks for ([UTC], the sign, the colon, ['0'], [','],
    the newline) are ASCII characters, for which bytes and code points
    coincide.  The class [\d] of the regular expression and [int] accept the
    decimal digits of every script; they read them through the table of the
    interpreter ([Py_UNICODE_TODECIMAL]), which is a parameter here, with the
    ten ASCII digits built in.  Python integers are [Z]; coefficients of
    decimals are [N].

    The methods are declared [async] and awaited one after another; nothing
    suspends, so they are modelled as plain calls.  A method is a computation
    over the object ([self]) that returns a value or raises.  The one piece
    of state outside the object that the program reads is the decimal context
    of the thread, which [Decimal.quantize] consults: [render_in] takes it as
    an argument, and [render] is [render_in] under the context a thread
    starts with. *)

From Stdlib Require Import ZArith NArith Zpow_facts QArith Qround List String Ascii Bool Lia.
From Stdlib Require Import Lqa.
Import ListNotations.

Local Open Scope Z_scope.
Local Open Scope string_scope.

(** ** Exceptions and results *)

Inductive exn : Type :=
| IndexError        (* timezones[0] on an empty list *)
| TypeError         (* datetime + None *)
| ValueError        (* int() on a text that is no number *)
| OverflowError     (* datetime + timedelta out of range *)
| InvalidOperation. (* decimal.InvalidOperation, trapped by the default context *)

Inductive result (A : Type) : Type :=
| Ok (a : A)
| Err (e : exn).
Arguments Ok {A} a.
Arguments Err {A} e.

Definition is_ok {A : Type} (r : result A) : bool :=
  match r with Ok _ => true | Err _ => false end.

(** ** Python text primitives *)

Module PyStr.

Definition chars : string -> list ascii := list_ascii_of_string.
Definition text : list ascii -> string := string_of_list_ascii.

Definition newline : ascii := "010"%char.
Definition dquote : ascii := "034"%char.

Definition is_digit (c : ascii) : bool :=
  let n := N_of_ascii c in ((48 <=? n) && (n <=? 57))%N.

Definition digit_char (d : N) : ascii := ascii_of_N (48 + d).

Definition digit_value (c : ascii) : Z := Z.of_N (N_of_ascii c) - 48.

(** [sep.join(items)]: the items with [sep] between neighbours. *)
Definition join (sep : string) (items : list string) : string :=
  match items with
  | [] => ""
  | x :: rest => fold_left (fun acc y => acc ++ sep ++ y) rest x
  end.

(** [s.split(sep)] for a one-character separator. *)
Fixpoint split (sep : ascii) (s : string) : list string :=
  match s with
  | "" => [""]
  | String c r =>
      if Ascii.eqb c sep then "" :: split sep r
      else match split sep r with
           | h :: t => String c h :: t
           | [] => [String c ""]
           end
  end.

Fixpoint mem_char (c : ascii) (set : string) : bool :=
  match set with
  | "" => false
  | String x r => Ascii.eqb c x || mem_char c r
  end.

(** [s.lstrip(set)]. *)
Fixpoint lstrip (set : string) (s : string) : string :=
  match s with
  | "" => ""
  | String c r => if mem_char c set then lstrip set r else s
  end.

(** [s.replace(old, new)] for one-character [old] and [new]. *)
Fixpoint replace (old new : ascii) (s : string) : string :=
  match s with
  | "" => ""
  | String c r => String (if Ascii.eqb c old then new else c) (replace old new r)
  end.

(** [str(n)] for a natural number: its decimal numeral. *)
Fixpoint digits_fuel (fuel : nat) (n : N) : string :=
  match fuel with
  | O => ""
  | S f =>
      if (n <? 10)%N then String (digit_char n) ""
      else digits_fuel f (n / 10)%N ++ String (digit_char (n mod 10)%N) ""
  end.

Definition str_N (n : N) : string := digits_fuel (S (N.size_nat n)) n.

(** [str(z)] for an integer. *)
Definition str_Z (z : Z) : string :=
  (if (z <? 0)%Z then "-" else "") ++ str_N (Z.abs_N z).

(** The number a text of ASCII digits stands for, read from the left. *)
Fixpoint int_digits (acc : Z) (s : string) : option Z :=
  match s with
  | "" => Some acc
  | String c r =>
      if is_digit c then int_digits (10 * acc + digit_value c) r else None
  end.

(** The number of bytes of the character that starts with the byte [c]: one
    for a byte below 128, two to four after a lead byte; a continuation byte
    starts no character. *)
Definition char_width (c : ascii) : nat :=
  let n := N_of_ascii c in
  if (n <? 128)%N then 1
  else if (n <? 192)%N then 0
  else if (n <? 224)%N then 2
  else if (n <? 240)%N then 3
  else if (n <? 248)%N then 4
  else 0.

(** The first [n] bytes of [s] and what follows them. *)
Fixpoint split_at (n : nat) (s : string) : option (string * string) :=
  match n with
  | O => Some ("", s)
  | S k =>
      match s with
      | "" => None
      | String c r =>
          match split_at k r with
          | Some (h, t) => Some (String c h, t)
          | None => None
          end
      end
  end.

(** [s[0]] and [s[1:]]: the first character of a text and the rest. *)
Definition head_char (s : string) : option (string * string) :=
  match s with
  | "" => None
  | String c _ =>
      match char_width c with
      | O => None
      | w => split_at w s
      end
  end.

Section Digits.

(** [Py_UNICODE_TODECIMAL] on a character outside ASCII: the digit that a
    decimal digit of another script stands for, and nothing for any other
    character.  Both the class [\d] and [int] go by it. *)
Variable unicode_decimal : string -> option Z.

(** The digit a character stands for, when it is a decimal digit. *)
Definition decimal (ch : string) : option Z :=
  match ch with
  | "" => None
  | String c "" => if is_digit c then Some (digit_value c) else None
  | _ =>
      match unicode_decimal ch with
      | Some v => if (0 <=? v)%Z && (v <=? 9)%Z then Some v else None
      | None => None
      end
  end.

(** A decimal digit at the start of [s]: the character, the digit, the rest. *)
Definition digit_at (s : string) : option (string * Z * string) :=
  match head_char s with
  | Some (ch, rest) =>
      match decimal ch with
      | Some v => Some (ch, v, rest)
      | None => None
      end
  | None => None
  end.

(** [int(s)] on a text of decimal digits, the only texts the program hands
    to it; a sign, blanks or underscores, which [int] reads as well, are left
    out and raise here like any other text.  The fuel is the number of
    bytes, and every digit takes one at least. *)
Fixpoint int_chars (fuel : nat) (acc : Z) (s : string) : option Z :=
  match s with
  | "" => Some acc
  | String _ _ =>
      match fuel with
      | O => None
      | S f =>
          match digit_at s with
          | Some (_, v, rest) => int_chars f (10 * acc + v) rest
          | None => None
          end
      end
  end.

Definition int (s : string) : result Z :=
  match s with
  | "" => Err ValueError
  | String _ _ =>
      match int_chars (String.length s) 0 s with
      | Some z => Ok z
      | None => Err ValueError
      end
  end.

End Digits.

(** ['%02d' % n], for [0 <= n]. *)
Definition pad2 (n : Z) : string :=
  let s := str_N (Z.to_N n) in
  if (String.length s <? 2)%nat then "0" ++ s else s.

(** The thousands grouping of ['{:,}'.format]: walking the digits from the
    right, a comma goes in before every fourth digit. *)
Fixpoint group_rev (k : nat) (ds : list ascii) : list ascii :=
  match ds with
  | [] => []
  | d :: r =>
      match k with
      | O => ","%char :: d :: group_rev 2 r
      | S k' => d :: group_rev k' r
      end
  end.

Definition insert_thousands (s : string) : string :=
  text (rev (group_rev 3 (rev (chars s)))).

(** ['{:,}'.format(z)] for an integer. *)
Definition format_comma (z : Z) : string :=
  (if (z <? 0)%Z then "-" else "") ++ insert_thousands (str_N (Z.abs_N z)).

End PyStr.

Import PyStr.

(** ** The regular expression of [_parse_tz] *)

Module Re.

(** A match of ['UTC([+-])(\d\d):(\d\d)'] with its three groups. *)
Record Match : Type := { group1 : ascii; group2 : string; group3 : string }.

Definition is_sign (c : ascii) : bool :=
  Ascii.eqb c "+" || Ascii.eqb c "-".

Section Pattern.

Variable unicode_decimal : string -> option Z.

(** The pattern matched at the start of [s]: the three letters, a sign, two
    decimal digits, a colon, two decimal digits. *)
Definition match_at (s : string) : option Match :=
  match s with
  | String u (String t (String c (String sg r))) =>
      if Ascii.eqb u "U" && Ascii.eqb t "T" && Ascii.eqb c "C" && is_sign sg
      then
        match digit_at unicode_decimal r with
        | Some (h1, _, r1) =>
            match digit_at unicode_decimal r1 with
            | Some (h2, _, String co r2) =>
                if Ascii.eqb co ":" then
                  match digit_at unicode_decimal r2 with
                  | Some (m1, _, r3) =>
                      match digit_at unicode_decimal r3 with
                      | Some (m2, _, _) =>
                          Some {| group1 := sg;
                                  group2 := h1 ++ h2;
                                  group3 := m1 ++ m2 |}
                      | None => None
                      end
                  | None => None
                  end
                else None
            | _ => None
            end
        | None => None
        end
      else None
  | _ => None
  end.

(** [p.search(s)]: the match at the leftmost position that has one.  A
    position inside a character starts with a continuation byte, where the
    letter [U] does not match. *)
Fixpoint search (s : string) : option Match :=
  match match_at s with
  | Some m => Some m
  | None => match s with
            | "" => None
            | String _ r => search r
            end
  end.

End Pattern.

End Re.

(** ** [datetime] and [timedelta] *)

Module Datetime.

(** A normalised [timedelta]: [0 <= seconds < 86400],
    [0 <= microseconds < 10^6]. *)
Record timedelta : Type := { days : Z; seconds : Z; microseconds : Z }.

(** [timedelta(seconds=s)]. *)
Definition of_seconds (s : Z) : timedelta :=
  {| days := s / 86400; seconds := s mod 86400; microseconds := 0 |}.

(** [timedelta(hours=h, minutes=m)]. *)
Definition of_hours_minutes (h m : Z) : timedelta :=
  of_seconds (h * 3600 + m * 60).

(** A [datetime]; the date is kept as its proleptic Gregorian ordinal
    ([toordinal()], day 1 is 0001-01-01), which is all that addition uses. *)
Record datetime : Type :=
  { ordinal : Z; hour : Z; minute : Z; second : Z; microsecond : Z }.

(** [date.max.toordinal()], the ordinal of 9999-12-31. *)
Definition MAXORDINAL : Z := 3652059.

Definition is_leap (y : Z) : bool :=
  (y mod 4 =? 0)%Z && (negb (y mod 100 =? 0)%Z || (y mod 400 =? 0)%Z).

Definition days_before_year (y : Z) : Z :=
  let p := y - 1 in p * 365 + p / 4 - p / 100 + p / 400.

Definition days_in_month (y m : Z) : Z :=
  if (m =? 2)%Z then (if is_leap y then 29 else 28)
  else if (m =? 4)%Z || (m =? 6)%Z || (m =? 9)%Z || (m =? 11)%Z then 30
  else 31.

Fixpoint days_before_month_from (y : Z) (m : nat) : Z :=
  match m with
  | O => 0
  | S k => days_before_month_from y k + days_in_month y (Z.of_nat m)
  end.

Definition ymd2ord (y m d : Z) : Z :=
  days_before_year y + days_before_month_from y (Z.to_nat (m - 1)) + d.

(** [datetime(y, mo, d, h, mi, s)]. *)
Definition make (y mo d h mi s : Z) : datetime :=
  {| ordinal := ymd2ord y mo d; hour := h; minute := mi; second := s;
     microsecond := 0 |}.

(** Seconds since midnight. *)
Definition second_of_day (t : datetime) : Z :=
  hour t * 3600 + minute t * 60 + second t.

(** [datetime.__add__]: the sum as a [timedelta] since day 0, split again
    into date and time; a date outside [[1, MAXORDINAL]] overflows. *)
Definition add (t : datetime) (d : timedelta) : option datetime :=
  let us := microsecond t + microseconds d in
  let secs := second_of_day t + seconds d + us / 1000000 in
  let day := ordinal t + days d + secs / 86400 in
  let s := secs mod 86400 in
  if (0 <? day)%Z && (day <=? MAXORDINAL)%Z
  then Some {| ordinal := day;
               hour := s / 3600;
               minute := (s mod 3600) / 60;
               second := (s mod 3600) mod 60;
               microsecond := us mod 1000000 |}
  else None.

(** [t.strftime('%H:%M:%S')]. *)
Definition strftime_HMS (t : datetime) : string :=
  pad2 (hour t) ++ ":" ++ pad2 (minute t) ++ ":" ++ pad2 (second t).

(** A [datetime] as the constructor admits it. *)
Definition valid (t : datetime) : bool :=
  (1 <=? ordinal t)%Z && (ordinal t <=? MAXORDINAL)%Z
  && (0 <=? hour t)%Z && (hour t <? 24)%Z
  && (0 <=? minute t)%Z && (minute t <? 60)%Z
  && (0 <=? second t)%Z && (second t <? 60)%Z
  && (0 <=? microsecond t)%Z && (microsecond t <? 1000000)%Z.

End Datetime.

(** ** [decimal.Decimal] and its context *)

Module Dec.

(** A finite decimal, [(-1)^sign * coeff * 10^exp]. *)
Record Decimal : Type := { sign : bool; coeff : N; exp : Z }.

(** [decimal.DefaultContext]. *)
Definition prec : Z := 28.
Definition Emax : Z := 999999.
Definition Emin : Z := -999999.
Definition Etiny : Z := Emin - prec + 1.

(** [decimal.getcontext()], the context of the thread: its precision and
    its exponent limits.  The traps and the clamp are kept as the default
    context has them. *)
Record Context : Type := { ctx_prec : Z; ctx_Emax : Z; ctx_Emin : Z }.

Definition DefaultContext : Context :=
  {| ctx_prec := prec; ctx_Emax := Emax; ctx_Emin := Emin |}.

(** [context.Etiny()]. *)
Definition ctx_Etiny (context : Context) : Z :=
  ctx_Emin context - ctx_prec context + 1.

(** [len(self._int)]. *)
Definition ndigits (c : N) : Z := Z.of_nat (String.length (str_N c)).

Definition adjusted (d : Decimal) : Z := exp d + ndigits (coeff d) - 1.

(** [_rescale(e, ROUND_HALF_UP)]: zeros are appended when the exponent goes
    down; when it goes up the coefficient is cut after [digits] digits and
    bumped when the first digit cut off is 5 or more. *)
Definition rescale (d : Decimal) (e : Z) : Decimal :=
  if (coeff d =? 0)%N then {| sign := sign d; coeff := 0; exp := e |}
  else if (e <=? exp d)%Z
  then {| sign := sign d;
          coeff := (coeff d * 10 ^ Z.to_N (exp d - e))%N;
          exp := e |}
  else
    let digits := ndigits (coeff d) + exp d - e in
    let c := if (digits <? 0)%Z then 1%N else coeff d in
    let digits := if (digits <? 0)%Z then 0 else digits in
    let cut := Z.to_N (ndigits c - digits) in
    let kept := (c / 10 ^ cut)%N in
    let first_cut := ((c / 10 ^ (cut - 1)) mod 10)%N in
    {| sign := sign d;
       coeff := if (5 <=? first_cut)%N then (kept + 1)%N else kept;
       exp := e |}.

(** [self.quantize(e, rounding=ROUND_HALF_UP)], which reads the context
    of the thread.  As the library documents, a result whose coefficient
    would be longer than the precision of the context signals
    [InvalidOperation], and so does an exponent out of bounds; the signal is
    trapped.  The closing [_fix] leaves every result that passed the checks
    as it is. *)
Definition quantize_in (context : Context) (d e : Decimal) : result Decimal :=
  if negb ((ctx_Etiny context <=? exp e)%Z && (exp e <=? ctx_Emax context)%Z)
  then Err InvalidOperation
  else if (coeff d =? 0)%N
  then Ok {| sign := sign d; coeff := 0; exp := exp e |}
  else if (ctx_Emax context <? adjusted d)%Z then Err InvalidOperation
  else if (ctx_prec context <? adjusted d - exp e + 1)%Z
  then Err InvalidOperation
  else
    let ans := rescale d (exp e) in
    if (ctx_Emax context <? adjusted ans)%Z then Err InvalidOperation
    else if (ctx_prec context <? ndigits (coeff ans))%Z
    then Err InvalidOperation
    else Ok ans.

(** [quantize] under the context a thread starts with. *)
Definition quantize (d e : Decimal) : result Decimal :=
  quantize_in DefaultContext d e.

Fixpoint zeros (n : nat) : string :=
  match n with O => "" | S k => String "0" (zeros k) end.

(** ['%+d' % z]. *)
Definition signed (z : Z) : string :=
  (if (z <? 0)%Z then "-" else "+") ++ str_N (Z.abs_N z).

(** [str(d)]. *)
Definition to_str (d : Decimal) : string :=
  let int_ := str_N (coeff d) in
  let len := ndigits (coeff d) in
  let leftdigits := exp d + len in
  let dotplace :=
    if (exp d <=? 0)%Z && (-6 <? leftdigits)%Z then leftdigits else 1 in
  let intpart :=
    if (dotplace <=? 0)%Z then "0"
    else if (len <=? dotplace)%Z then int_ ++ zeros (Z.to_nat (dotplace - len))
    else substring 0 (Z.to_nat dotplace) int_ in
  let fracpart :=
    if (dotplace <=? 0)%Z then "." ++ zeros (Z.to_nat (- dotplace)) ++ int_
    else if (len <=? dotplace)%Z then ""
    else "." ++ substring (Z.to_nat dotplace) (Z.to_nat (len - dotplace)) int_ in
  let e :=
    if (leftdigits =? dotplace)%Z then ""
    else "E" ++ signed (leftdigits - dotplace) in
  (if sign d then "-" else "") ++ intpart ++ fracpart ++ e.

(** [Decimal('.01')]. *)
Definition cent : Decimal := {| sign := false; coeff := 1; exp := -2 |}.

End Dec.

Import Datetime Dec.

(** ** The data of [collectors.models] that the renderer reads

    [number] stands for the numeric type of the weather and location fields
    (int or float); the renderer only formats such a value or hands it to
    [tabulate]. *)

Record LanguagesInfoDTO : Type :=
  { lang_name : string; native_name : string }.

Record LocationDTO (number : Type) : Type :=
  { name : string;
    capital : string;
    subregion : string;
    population : Z;
    area : number;
    latitude : number;
    longitude : number;
    timezones : list string;
    languages : list LanguagesInfoDTO }.

Record WeatherInfoDTO (number : Type) : Type :=
  { temp : number;
    description : string;
    wind_speed : number;
    visibility : number }.

Record NewsDTO : Type :=
  { title : string; news_description : option string }.

Record NewsInfoDTO : Type := { news_list : list NewsDTO }.

(** [currency_rates] is a dict; its items in iteration order.  A rate is the
    value [Decimal(rates)] builds from it. *)
Record LocationInfoDTO (number : Type) : Type :=
  { location : LocationDTO number;
    weather : WeatherInfoDTO number;
    currency_rates : list (string * Decimal);
    news : NewsInfoDTO;
    timestamp : datetime }.

Arguments name {number}. Arguments capital {number}.
Arguments subregion {number}. Arguments population {number}.
Arguments area {number}. Arguments latitude {number}.
Arguments longitude {number}. Arguments timezones {number}.
Arguments languages {number}. Arguments temp {number}.
Arguments description {number}. Arguments wind_speed {number}.
Arguments visibility {number}. Arguments location {number}.
Arguments weather {number}. Arguments currency_rates {number}.
Arguments news {number}. Arguments timestamp {number}.

(** The object: [self.location_info]. *)
Record Renderer (number : Type) : Type :=
  { location_info : LocationInfoDTO number }.
Arguments location_info {number}.

(** [__init__], lines 18-25: the new object keeps the record it is given. *)
Definition __init__ {number : Type} (location_info : LocationInfoDTO number)
  : Renderer number :=
  {| location_info := location_info |}.

(** A cell handed to [tabulate]: a text or a raw number. *)
Inductive cell (number : Type) : Type :=
| Text (s : string)
| Number (x : number).
Arguments Text {number} s.
Arguments Number {number} x.

(** ** Methods: computations over the object that may raise *)

Definition M (number A : Type) : Type :=
  Renderer number -> result A * Renderer number.

Definition ret {number A : Type} (a : A) : M number A :=
  fun self => (Ok a, self).

Definition raise {number A : Type} (e : exn) : M number A :=
  fun self => (Err e, self).

Definition bind {number A B : Type} (m : M number A) (k : A -> M number B)
  : M number B :=
  fun self =>
    match m self with
    | (Ok a, self') => k a self'
    | (Err e, self') => (Err e, self')
    end.

Definition lift {number A : Type} (r : result A) : M number A :=
  fun self => (r, self).

(** Reading [self.location_info]. *)
Definition get_location_info {number : Type} : M number (LocationInfoDTO number) :=
  fun self => (Ok (location_info self), self).

Notation "x <- m ;; k" := (bind m (fun x => k))
  (at level 61, m at next level, right associativity).

(** Reading an attribute below [self.location_info]. *)
Definition attr {number A : Type} (f : LocationInfoDTO number -> A)
  : M number A :=
  li <- get_location_info ;; ret (f li).

(** [l[0]]. *)
Definition getitem0 {number A : Type} (l : list A) : M number A :=
  match l with
  | x :: _ => ret x
  | [] => raise IndexError
  end.

Fixpoint mapM {number A B : Type} (f : A -> M number B) (l : list A)
  : M number (list B) :=
  match l with
  | [] => ret []
  | x :: r => y <- f x ;; ys <- mapM f r ;; ret (y :: ys)
  end.

(** [enumerate(l)], counting from [i]. *)
Fixpoint enumerate_from {A : Type} (i : Z) (l : list A) : list (Z * A) :=
  match l with
  | [] => []
  | x :: r => (i, x) :: enumerate_from (i + 1) r
  end.

(** [timestamp + offset], where [offset] is what [_parse_tz] returned. *)
Definition add_offset (t : datetime) (offset : option timedelta)
  : result datetime :=
  match offset with
  | None => Err TypeError
  | Some d => match Datetime.add t d with
              | Some t' => Ok t'
              | None => Err OverflowError
              end
  end.

(** [(timestamp + offset).strftime('%H:%M:%S')]. *)
Definition time_result (t : datetime) (offset : option timedelta)
  : result string :=
  match add_offset t offset with
  | Ok t' => Ok (strftime_HMS t')
  | Err e => Err e
  end.

Section Renderer.

Context {number : Type}.

(** The table of decimal digits of the interpreter, see [PyStr.decimal]. *)
Variable unicode_decimal : string -> option Z.

(** [format(x, '')], what an f-string field does with a number. *)
Variable format_number : number -> string.

(** [tabulate(table, headers, tablefmt="simple")] of the tabulate package. *)
Variable tabulate : list (list (cell number)) -> list string -> string.

(** [_format_languages], lines 53-63. *)
Definition _format_languages : M number string :=
  li <- get_location_info ;;
  ret (join ", "
         (map (fun item => lang_name item ++ " (" ++ native_name item ++ ")")
              (languages (location li)))).

(** [_format_population], lines 65-73. *)
Definition _format_population : M number string :=
  li <- get_location_info ;;
  ret (replace "," "." (format_comma (population (location li)))).

(** [_format_currency_rates], lines 75-85, under the decimal context
    [context]; [join] runs the generator to its end before it joins, so the
    first rate that raises ends the call. *)
Definition _format_currency_rates_in (context : Context) : M number string :=
  li <- get_location_info ;;
  entries <- mapM (fun '(currency, rates) =>
                     q <- lift (quantize_in context rates cent) ;;
                     ret (currency ++ " = " ++ to_str q ++ " руб."))
                  (currency_rates li) ;;
  ret (join ", " entries).

Definition _format_currency_rates : M number string :=
  _format_currency_rates_in DefaultContext.

(** [_parse_tz], lines 97-111.  [sign] is bound and not used again.  The
    [try] around the two [lstrip] calls guards calls that do not raise; its
    [except] branch is never taken.  Without a match the method falls off
    its end and returns [None]. *)
Definition _parse_tz (tzstr : string) : M number (option timedelta) :=
  match Re.search unicode_decimal tzstr with
  | Some m =>
      let sign := Re.group1 m in
      let hs := lstrip "0" (Re.group2 m) in
      let ms := lstrip "0" (Re.group3 m) in
      h <- (if String.eqb hs "" then ret 0
            else lift (int unicode_decimal hs)) ;;
      mi <- (if String.eqb ms "" then ret 0
             else lift (int unicode_decimal ms)) ;;
      let tz_offset := of_hours_minutes h mi in
      ret (Some tz_offset)
  | None => ret None
  end.

(** [_format_time], lines 87-95. *)
Definition _format_time : M number string :=
  li <- get_location_info ;;
  tz0 <- getitem0 (timezones (location li)) ;;
  offset <- _parse_tz tz0 ;;
  time <- lift (add_offset (timestamp li) offset) ;;
  ret (strftime_HMS time).

(** [_format_news], lines 114-124. *)
Definition _format_news : M number string :=
  li <- get_location_info ;;
  ret (fold_left
         (fun res '(i, newsDTO) =>
            res ++ str_Z (i + 1) ++ ") " ++ String dquote (title newsDTO)
                ++ String dquote ". "
                ++ match news_description newsDTO with
                   | Some d => d
                   | None => ""
                   end
                ++ String newline "")
         (enumerate_from 0 (news_list (news li)))
         (String newline "")).

(** [render], lines 27-51, under the decimal context [context]: the cells
    are computed row by row, each attribute read from the object when its row
    is reached. *)
Definition render_in (context : Context) : M number (list string) :=
  country <- attr (fun li => name (location li)) ;;
  city <- attr (fun li => capital (location li)) ;;
  region <- attr (fun li => subregion (location li)) ;;
  langs <- _format_languages ;;
  people <- _format_population ;;
  rates <- _format_currency_rates_in context ;;
  degrees <- attr (fun li => format_number (temp (weather li))) ;;
  sky <- attr (fun li => description (weather li)) ;;
  wind <- attr (fun li => wind_speed (weather li)) ;;
  sight <- attr (fun li => visibility (weather li)) ;;
  surface <- attr (fun li => format_number (area (location li))) ;;
  lat <- attr (fun li => format_number (latitude (location li))) ;;
  lon <- attr (fun li => format_number (longitude (location li))) ;;
  time <- _format_time ;;
  tz0 <- (li <- get_location_info ;; getitem0 (timezones (location li))) ;;
  news_block <- _format_news ;;
  let table :=
    [ [Text "Страна:"; Text country];
      [Text "Столица:"; Text city];
      [Text "Регион:"; Text region];
      [Text "Языки:"; Text langs];
      [Text "Население страны:"; Text (people ++ " чел.")];
      [Text "Курсы валют:"; Text rates];
      [Text "Погода:"; Text (degrees ++ " °C")];
      [Text "Описание погоды:"; Text sky];
      [Text "Скорость ветра:"; Number wind];
      [Text "Видимость:"; Number sight];
      [Text "Площадь:"; Text (surface ++ " км^2")];
      [Text "Широта и долгота:"; Text ("(" ++ lat ++ ", " ++ lon ++ ")")];
      [Text "Местное время:"; Text (time ++ " (" ++ tz0 ++ ")")];
      [Text "Новости:"; Text news_block] ] in
  ret (split newline (tabulate table ["Параметр"; "Значение"])).

Definition render : M number (list string) :=
  render_in DefaultContext.

End Renderer.

(** ** A renderer over a record with one field replaced *)

Section Setters.

Context {number : Type}.

Definition set_location (f : LocationDTO number -> LocationDTO number)
    (self : Renderer number) : Renderer number :=
  let li := location_info self in
  {| location_info :=
       {| location := f (location li); weather := weather li;
          currency_rates := currency_rates li; news := news li;
          timestamp := timestamp li |} |}.

Definition set_languages (ls : list LanguagesInfoDTO)
  : Renderer number -> Renderer number :=
  set_location (fun l =>
    {| name := name l; capital := capital l; subregion := subregion l;
       population := population l; area := area l; latitude := latitude l;
       longitude := longitude l; timezones := timezones l;
       languages := ls |}).

Definition set_population (n : Z) : Renderer number -> Renderer number :=
  set_location (fun l =>
    {| name := name l; capital := capital l; subregion := subregion l;
       population := n; area := area l; latitude := latitude l;
       longitude := longitude l; timezones := timezones l;
       languages := languages l |}).

Definition set_timezones (tzs : list string)
  : Renderer number -> Renderer number :=
  set_location (fun l =>
    {| name := name l; capital := capital l; subregion := subregion l;
       population := population l; area := area l; latitude := latitude l;
       longitude := longitude l; timezones := tzs;
       languages := languages l |}).

Definition set_currency_rates (rs : list (string * Decimal))
    (self : Renderer number) : Renderer number :=
  let li := location_info self in
  {| location_info :=
       {| location := location li; weather := weather li;
          currency_rates := rs; news := news li;
          timestamp := timestamp li |} |}.

Definition set_news (items : list NewsDTO) (self : Renderer number)
  : Renderer number :=
  let li := location_info self in
  {| location_info :=
       {| location := location li; weather := weather li;
          currency_rates := currency_rates li;
          news := {| news_list := items |};
          timestamp := timestamp li |} |}.

Definition set_timestamp (t : datetime) (self : Renderer number)
  : Renderer number :=
  let li := location_info self in
  {| location_info :=
       {| location := location li; weather := weather li;
          currency_rates := currency_rates li; news := news li;
          timestamp := t |} |}.

End Setters.

(** ** What the specification says, in its own terms *)

Module Spec.

(** Items in order with [sep] between neighbours. *)
Fixpoint separated (sep : string) (items : list string) : string :=
  match items with
  | [] => ""
  | x :: rest =>
      match rest with
      | [] => x
      | _ :: _ => x ++ sep ++ separated sep rest
      end
  end.

(** The pieces one after another, nothing between. *)
Definition glue (pieces : list string) : string :=
  fold_right String.append "" pieces.

(** [Name (NativeName)]. *)
Definition language_entry (l : LanguagesInfoDTO) : string :=
  lang_name l ++ " (" ++ native_name l ++ ")".

(** The line [N) "Title". Description] with its newline. *)
Definition news_line (n : Z) (item : NewsDTO) : string :=
  str_Z n ++ ") " ++ String dquote (title item) ++ String dquote ". "
    ++ match news_description item with Some d => d | None => "" end
    ++ String newline "".

Fixpoint news_lines (n : Z) (items : list NewsDTO) : string :=
  match items with
  | [] => ""
  | item :: rest => news_line n item ++ news_lines (n + 1) rest
  end.

Definition news_block (items : list NewsDTO) : string :=
  String newline (news_lines 1 items).

(** The magnitude of a decimal as an exact rational. *)
Definition magnitude (d : Decimal) : Q :=
  if (0 <=? exp d)%Z then inject_Z (Z.of_N (coeff d) * 10 ^ exp d)
  else Qmake (Z.of_N (coeff d)) (Z.to_pos (10 ^ (- exp d))).

(** The magnitude in hundredths, rounded half up. *)
Definition half_up_cents (d : Decimal) : Z :=
  Qfloor (magnitude d * inject_Z 100 + Qmake 1 2)%Q.

(** A two-digit field. *)
Definition two (n : Z) : string :=
  String (digit_char (Z.to_N (n / 10)))
         (String (digit_char (Z.to_N (n mod 10))) "").

(** [X.XX]: the rounded rate with exactly two decimal places. *)
Definition two_places (d : Decimal) : string :=
  (if sign d then "-" else "")
    ++ str_N (Z.to_N (half_up_cents d / 100)) ++ "."
    ++ two (half_up_cents d mod 100).

Definition currency_entry (item : string * Decimal) : string :=
  fst item ++ " = " ++ two_places (snd item) ++ " руб.".

(** The rounded rate has at most [prec] digits. *)
Definition fits_context (d : Decimal) : bool :=
  (half_up_cents d <? 10 ^ prec)%Z.

(** The text [UTC±HH:MM]. *)
Definition utc_text (sg h1 h2 m1 m2 : ascii) : string :=
  "UTC" ++ String sg (String h1 (String h2
             (String ":" (String m1 (String m2 ""))))).

(** The number two digits stand for; a leading zero does not count. *)
Definition two_digits (a b : ascii) : Z := 10 * digit_value a + digit_value b.

(** A well-shaped offset: a sign and four digits. *)
Definition offset_chars (sg h1 h2 m1 m2 : ascii) : bool :=
  Re.is_sign sg && is_digit h1 && is_digit h2 && is_digit m1 && is_digit m2.

(** A piece of text cut as the pattern cuts it: a sign and four characters
    around the colon, after the letters [UTC]. *)
Record Piece : Type :=
  { p_sign : ascii; p_h1 : string; p_h2 : string;
    p_m1 : string; p_m2 : string }.

Definition piece_text (p : Piece) : string :=
  "UTC" ++ String (p_sign p) (p_h1 p ++ p_h2 p ++ ":" ++ p_m1 p ++ p_m2 p).

(** The piece written with ASCII digits; its text is [utc_text]. *)
Definition ascii_piece (sg h1 h2 m1 m2 : ascii) : Piece :=
  {| p_sign := sg; p_h1 := String h1 ""; p_h2 := String h2 "";
     p_m1 := String m1 ""; p_m2 := String m2 "" |}.

(** The groups of a match on a piece. *)
Definition groups_of (p : Piece) : Re.Match :=
  {| Re.group1 := p_sign p;
     Re.group2 := p_h1 p ++ p_h2 p;
     Re.group3 := p_m1 p ++ p_m2 p |}.

Section Offsets.

Variable unicode_decimal : string -> option Z.

(** The digit that [ch] stands for, when [ch] is one character and a
    decimal digit of some script. *)
Definition digit_of (ch : string) : option Z :=
  match head_char ch with
  | Some (c, "") => decimal unicode_decimal c
  | _ => None
  end.

(** The hours and minutes that a piece of the shape [UTC±HH:MM] names: [HH]
    and [MM] read as numbers in base ten; nothing for a piece that is not of
    the shape. *)
Definition piece_offset (p : Piece) : option (Z * Z) :=
  if Re.is_sign (p_sign p) then
    match digit_of (p_h1 p), digit_of (p_h2 p),
          digit_of (p_m1 p), digit_of (p_m2 p) with
    | Some a, Some b, Some c, Some d => Some (10 * a + b, 10 * c + d)
    | _, _, _, _ => None
    end
  else None.

(** [tz] holds after [pre] a piece of the shape that names [h] hours and
    [m] minutes. *)
Definition offset_after (pre tz : string) (p : Piece) (h m : Z) : Prop :=
  piece_offset p = Some (h, m) /\
  exists post, tz = pre ++ piece_text p ++ post.

Definition contains_offset (tz : string) : Prop :=
  exists pre p h m, offset_after pre tz p h m.

(** The piece after [pre] is the first one in [tz]. *)
Definition first_offset (pre tz : string) (p : Piece) (h m : Z) : Prop :=
  offset_after pre tz p h m /\
  forall pre' p' h' m',
    offset_after pre' tz p' h' m' ->
    (String.length pre <= String.length pre')%nat.

End Offsets.

(** [HH:MM:SS] of a second of the day. *)
Definition clock (s : Z) : string :=
  two (s / 3600) ++ ":" ++ two (s / 60 mod 60) ++ ":" ++ two (s mod 60).

(** The time of day [off] seconds after [t]. *)
Definition local_second (t : datetime) (off : Z) : Z :=
  (second_of_day t + off) mod 86400.

(** The moment [off] seconds after [t] is a date up to 9999-12-31. *)
Definition representable (t : datetime) (off : Z) : bool :=
  (86400 <=? ordinal t * 86400 + second_of_day t + off)%Z
  && (ordinal t * 86400 + second_of_day t + off <? (MAXORDINAL + 1) * 86400)%Z.

(** The offset a timezone text of the exact form [UTC±HH:MM] names, in
    seconds, the sign left aside. *)
Definition exact_offset (tz : string) : option Z :=
  match tz with
  | String u (String t (String c (String sg (String h1 (String h2
      (String co (String m1 (String m2 "")))))))) =>
      if String.eqb tz (utc_text sg h1 h2 m1 m2) && offset_chars sg h1 h2 m1 m2
      then Some (two_digits h1 h2 * 3600 + two_digits m1 m2 * 60)
      else None
  | _ => None
  end.

(** The fourteen rows of the report in their fixed order, around the texts
    of the formatters. *)
Definition report_rows {number : Type} (format_number : number -> string)
    (li : LocationInfoDTO number)
    (langs people rates time tz0 news_block : string)
  : list (list (cell number)) :=
  [ [Text "Страна:"; Text (name (location li))];
    [Text "Столица:"; Text (capital (location li))];
    [Text "Регион:"; Text (subregion (location li))];
    [Text "Языки:"; Text langs];
    [Text "Население страны:"; Text (people ++ " чел.")];
    [Text "Курсы валют:"; Text rates];
    [Text "Погода:"; Text (format_number (temp (weather li)) ++ " °C")];
    [Text "Описание погоды:"; Text (description (weather li))];
    [Text "Скорость ветра:"; Number (wind_speed (weather li))];
    [Text "Видимость:"; Number (visibility (weather li))];
    [Text "Площадь:"; Text (format_number (area (location li)) ++ " км^2")];
    [Text "Широта и долгота:";
     Text ("(" ++ format_number (latitude (location li)) ++ ", "
               ++ format_number (longitude (location li)) ++ ")")];
    [Text "Местное время:"; Text (time ++ " (" ++ tz0 ++ ")")];
    [Text "Новости:"; Text news_block] ].

(** A record as the data model describes it: a population that is not
    negative, a timestamp that is a datetime, a first timezone of the form
    [UTC±HH:MM] whose local time is a representable moment, rates in the
    range of the decimal context. *)
Definition well_formed {number : Type} (li : LocationInfoDTO number) : bool :=
  (0 <=? population (location li))%Z
  && Datetime.valid (timestamp li)
  && match timezones (location li) with
     | tz :: _ =>
         match exact_offset tz with
         | Some off => representable (timestamp li) off
         | None => false
         end
     | [] => false
     end
  && forallb (fun item => fits_context (snd item)) (currency_rates li).

End Spec.

(** ** A record to run the renderer on *)

Module Sample.

Definition english : LanguagesInfoDTO :=
  {| lang_name := "English"; native_name := "English" |}.
Definition spanish : LanguagesInfoDTO :=
  {| lang_name := "Spanish"; native_name := "Español" |}.

Definition dec (c : N) (e : Z) : Decimal :=
  {| sign := false; coeff := c; exp := e |}.

(** 2.005, 2.0 and 0.004. *)
Definition rates : list (string * Decimal) :=
  [("USD", dec 2005 (-3)); ("EUR", dec 20 (-1)); ("GBP", dec 4 (-3))].

Definition items : list NewsDTO :=
  [ {| title := "A"; news_description := Some "B" |};
    {| title := "C"; news_description := None |} ].

(** 2023-01-01T10:00:00. *)
Definition new_year : datetime := Datetime.make 2023 1 1 10 0 0.

Definition info (tz : list string) (rs : list (string * Decimal))
    (t : datetime) : LocationInfoDTO Z :=
  {| location :=
       {| name := "Spain"; capital := "Madrid";
          subregion := "Southern Europe"; population := 1234567;
          area := 505992; latitude := 40; longitude := -4;
          timezones := tz; languages := [english; spanish] |};
     weather :=
       {| temp := 21; description := "clear sky"; wind_speed := 3;
          visibility := 10000 |};
     currency_rates := rs;
     news := {| news_list := items |};
     timestamp := t |}.

Definition renderer (tz : string) : Renderer Z :=
  {| location_info := info [tz] rates new_year |}.

(** A table of decimal digits that knows the Arabic-Indic digits, U+0660 to
    U+0669, the bytes 217 160 to 217 169. *)
Definition arabic_indic (ch : string) : option Z :=
  match ch with
  | String a (String b "") =>
      if (N_of_ascii a =? 217)%N
         && (160 <=? N_of_ascii b)%N && (N_of_ascii b <=? 169)%N
      then Some (Z.of_N (N_of_ascii b) - 160)
      else None
  | _ => None
  end.

(** The piece [+01:01] in Arabic-Indic digits. *)
Definition one_one : Spec.Piece :=
  {| Spec.p_sign := "+"; Spec.p_h1 := "٠"; Spec.p_h2 := "١";
     Spec.p_m1 := "٠"; Spec.p_m2 := "١" |}.


(** A bare layout, one line per row, to run [render] with. *)
Definition cell_text (c : cell Z) : string :=
  match c with Text s => s | Number x => str_Z x end.

Definition plain (table : list (list (cell Z))) (headers : list string)
  : string :=
  join (String newline "")
       (join "  " headers :: map (fun row => join "  " (map cell_text row)) table).

End Sample.

Import Spec.

(** * Facts *)

(** ** Text *)

Section TextFacts.

Lemma append_nil_r (s : string) : s ++ "" = s.
Proof. induction s as [|c s IH]; simpl; [reflexivity | now rewrite IH]. Qed.

Lemma append_assoc (a b c : string) : (a ++ b) ++ c = a ++ (b ++ c).
Proof. induction a as [|x a IH]; simpl; [reflexivity | now rewrite IH]. Qed.

Lemma length_append (a b : string) :
  String.length (a ++ b) = (String.length a + String.length b)%nat.
Proof. induction a as [|x a IH]; simpl; [reflexivity | now rewrite IH]. Qed.

Lemma chars_app (a b : string) : chars (a ++ b) = (chars a ++ chars b)%list.
Proof.
  unfold chars. induction a as [|x a IH]; simpl; [reflexivity | now rewrite IH].
Qed.

Lemma text_app (l1 l2 : list ascii) : text (l1 ++ l2) = text l1 ++ text l2.
Proof.
  unfold text. induction l1 as [|x l1 IH]; simpl; [reflexivity | now rewrite IH].
Qed.

Lemma text_chars (s : string) : text (chars s) = s.
Proof. apply string_of_list_ascii_of_string. Qed.

Lemma substring_app_left (a b : string) :
  substring 0 (String.length a) (a ++ b) = a.
Proof.
  induction a as [|x a IH]; simpl.
  - destruct b; reflexivity.
  - now rewrite IH.
Qed.

Lemma substring_all (b : string) : substring 0 (String.length b) b = b.
Proof. induction b as [|x b IH]; simpl; [reflexivity | now rewrite IH]. Qed.

Lemma substring_app_right (a b : string) :
  substring (String.length a) (String.length b) (a ++ b) = b.
Proof.
  induction a as [|x a IH]; simpl; [apply substring_all | exact IH].
Qed.

End TextFacts.

(** ** [join] *)

Section JoinFacts.

Variable sep : string.

Let step : string -> string -> string := fun acc y => acc ++ sep ++ y.

Lemma fold_step_app (rest : list string) (p x : string) :
  fold_left step rest (p ++ x) = p ++ fold_left step rest x.
Proof.
  revert x. induction rest as [|y rest IH]; intros x; simpl; [reflexivity|].
  unfold step at 2 4. rewrite <- IH. now rewrite append_assoc.
Qed.

Lemma join_cons_cons (x y : string) (rest : list string) :
  join sep (x :: y :: rest) = x ++ sep ++ join sep (y :: rest).
Proof.
  unfold join. simpl. fold step. unfold step at 2.
  rewrite fold_step_app. now rewrite fold_step_app.
Qed.

Lemma join_separated (items : list string) :
  join sep items = separated sep items.
Proof.
  induction items as [|x rest IH]; [reflexivity|].
  destruct rest as [|y rest]; [reflexivity|].
  rewrite join_cons_cons, IH. reflexivity.
Qed.

Lemma join_snoc (x : string) (items : list string) (y : string) :
  join sep ((x :: items) ++ [y]) = join sep (x :: items) ++ sep ++ y.
Proof. unfold join. simpl. now rewrite fold_left_app. Qed.

End JoinFacts.

(** ** Languages *)

(** C8. The language formatter gives the entries [Name (NativeName)] in the
    order of the input with [", "] between neighbours; the empty list gives
    the empty text, and English and Spanish give
    [English (English), Spanish (Español)]. *)
Theorem format_languages_joins {number : Type} (self : Renderer number) :
  _format_languages self
  = (Ok (separated ", "
           (map language_entry (languages (location (location_info self))))),
     self)
  /\ _format_languages (set_languages [] self)
     = (Ok "", set_languages [] self)
  /\ _format_languages (set_languages [Sample.english; Sample.spanish] self)
     = (Ok "English (English), Spanish (Español)",
        set_languages [Sample.english; Sample.spanish] self).
Proof.
  split; [|split; reflexivity].
  unfold _format_languages, bind, get_location_info, ret.
  now rewrite join_separated.
Qed.

(** ** News *)

Section NewsFacts.

Let step : string -> Z * NewsDTO -> string :=
  fun res '(i, newsDTO) =>
    res ++ str_Z (i + 1) ++ ") " ++ String dquote (title newsDTO)
        ++ String dquote ". "
        ++ match news_description newsDTO with
           | Some d => d
           | None => ""
           end
        ++ String newline "".

Lemma news_loop (items : list NewsDTO) (i : Z) (res : string) :
  fold_left step (enumerate_from i items) res
  = res ++ news_lines (i + 1) items.
Proof.
  revert i res. induction items as [|item rest IH]; intros i res; simpl.
  - now rewrite append_nil_r.
  - rewrite IH, append_assoc. reflexivity.
Qed.

End NewsFacts.

(** C7. The news formatter gives a newline and then, for the items in input
    order counted from 1, the lines [N) "Title". Description], each closed
    by a newline, with nothing for an absent description; items A/B and
    C/None give the block of the example. *)
Theorem format_news_block {number : Type} (self : Renderer number) :
  _format_news self
  = (Ok (news_block (news_list (news (location_info self)))), self)
  /\ _format_news (set_news Sample.items self)
     = (Ok (String newline
              ("1) " ++ String dquote ("A" ++ String dquote (". B"
                 ++ String newline
              ("2) " ++ String dquote ("C" ++ String dquote (". "
                 ++ String newline ""))))))),
        set_news Sample.items self).
Proof.
  split; [|reflexivity].
  unfold _format_news, bind, get_location_info, ret.
  rewrite news_loop. reflexivity.
Qed.

(** ** Decimal numerals *)

Section NumeralFacts.

Lemma digit_cases (d : N) :
  (d < 10)%N ->
  d = 0%N \/ d = 1%N \/ d = 2%N \/ d = 3%N \/ d = 4%N \/ d = 5%N \/ d = 6%N
  \/ d = 7%N \/ d = 8%N \/ d = 9%N.
Proof. lia. Qed.

Ltac by_digit d H :=
  let C := fresh "C" in
  pose proof (digit_cases d H) as C;
  repeat (destruct C as [C | C]; [subst d; try reflexivity|]);
  subst d; try reflexivity.

Lemma is_digit_digit_char (d : N) : (d < 10)%N -> is_digit (digit_char d) = true.
Proof. intros H. by_digit d H. Qed.

Lemma digit_value_digit_char (d : N) :
  (d < 10)%N -> digit_value (digit_char d) = Z.of_N d.
Proof. intros H. by_digit d H. Qed.

Lemma digit_char_inj (a b : N) :
  (a < 10)%N -> (b < 10)%N -> digit_char a = digit_char b -> a = b.
Proof.
  intros Ha Hb E. apply N2Z.inj.
  rewrite <- (digit_value_digit_char a Ha), <- (digit_value_digit_char b Hb).
  now rewrite E.
Qed.

Lemma digits_fuel_enough (f1 : nat) :
  forall (f2 : nat) (n : N),
    Z.of_N n < 2 ^ Z.of_nat f1 -> Z.of_N n < 2 ^ Z.of_nat f2 ->
    digits_fuel (S f1) n = digits_fuel (S f2) n.
Proof.
  induction f1 as [|f1 IH]; intros f2 n H1 H2.
  - change (2 ^ Z.of_nat 0) with 1 in H1.
    assert (n = 0%N) by lia. subst n. reflexivity.
  - cbn [digits_fuel]. destruct (N.ltb_spec n 10) as [Hn | Hn]; [reflexivity|].
    destruct f2 as [|f2].
    + change (2 ^ Z.of_nat 0) with 1 in H2. lia.
    + f_equal. apply IH.
      * rewrite Nat2Z.inj_succ, Z.pow_succ_r in H1 by lia.
        rewrite N2Z.inj_div. change (Z.of_N 10) with 10.
        apply Z.div_lt_upper_bound; lia.
      * rewrite Nat2Z.inj_succ, Z.pow_succ_r in H2 by lia.
        rewrite N2Z.inj_div. change (Z.of_N 10) with 10.
        apply Z.div_lt_upper_bound; lia.
Qed.

Lemma size_nat_bound (n : N) : Z.of_N n < 2 ^ Z.of_nat (N.size_nat n).
Proof.
  destruct n as [|p]; [reflexivity|].
  cbn [N.size_nat Z.of_N]. now apply Zpower2_Psize.
Qed.

Lemma str_N_small (n : N) :
  (n < 10)%N -> str_N n = String (digit_char n) "".
Proof.
  intros H. unfold str_N. cbn [digits_fuel].
  destruct (N.ltb_spec n 10); [reflexivity | lia].
Qed.

Lemma str_N_step (n : N) :
  (10 <= n)%N ->
  str_N n = str_N (n / 10) ++ String (digit_char (n mod 10)) "".
Proof.
  intros H. unfold str_N at 1. cbn [digits_fuel].
  destruct (N.ltb_spec n 10); [lia|].
  f_equal. unfold str_N.
  pose proof (size_nat_bound n) as Hn.
  destruct (N.size_nat n) as [|k] eqn:E.
  - change (2 ^ Z.of_nat 0) with 1 in Hn. lia.
  - apply digits_fuel_enough.
    + rewrite Nat2Z.inj_succ, Z.pow_succ_r in Hn by lia.
      rewrite N2Z.inj_div. change (Z.of_N 10) with 10.
      apply Z.div_lt_upper_bound; lia.
    + apply size_nat_bound.
Qed.

(** Induction along the numeral. *)
Lemma str_N_ind (P : N -> string -> Prop) :
  (forall n, (n < 10)%N -> P n (String (digit_char n) "")) ->
  (forall n, (10 <= n)%N -> P (n / 10)%N (str_N (n / 10)) ->
             P n (str_N (n / 10) ++ String (digit_char (n mod 10)) "")) ->
  forall n, P n (str_N n).
Proof.
  intros Hsmall Hstep n.
  induction n as [n IH] using (well_founded_induction N.lt_wf_0).
  destruct (N.ltb_spec n 10) as [Hn | Hn].
  - rewrite str_N_small by exact Hn. now apply Hsmall.
  - rewrite str_N_step by exact Hn. apply Hstep; [exact Hn|].
    apply IH. apply N.div_lt; lia.
Qed.

Lemma forallb_chars_app (p : ascii -> bool) (a b : string) :
  forallb p (chars (a ++ b)) = forallb p (chars a) && forallb p (chars b).
Proof. now rewrite chars_app, forallb_app. Qed.

Lemma str_N_digits (n : N) : forallb is_digit (chars (str_N n)) = true.
Proof.
  apply (str_N_ind (fun _ s => forallb is_digit (chars s) = true)).
  - intros k Hk. cbn. now rewrite is_digit_digit_char.
  - intros k Hk IH. rewrite forallb_chars_app, IH. cbn.
    rewrite is_digit_digit_char; [reflexivity|].
    apply N.mod_lt. discriminate.
Qed.

Lemma str_N_nonempty (n : N) : str_N n <> "".
Proof.
  apply (str_N_ind (fun _ s => s <> "")).
  - discriminate.
  - intros k _ _. destruct (str_N (k / 10)); discriminate.
Qed.

End NumeralFacts.

(** ** Population *)

Section GroupFacts.

Lemma glue_snoc (gs : list string) (x : string) :
  glue (gs ++ [x]) = glue gs ++ x.
Proof.
  unfold glue. induction gs as [|g gs IH]; simpl.
  - apply append_nil_r.
  - rewrite IH. now rewrite append_assoc.
Qed.

Lemma group_rev_short (ds : list ascii) :
  (List.length ds <= 3)%nat -> group_rev 3 ds = ds.
Proof.
  destruct ds as [|a [|b [|c [|d ds]]]]; simpl; intros H;
    try reflexivity; lia.
Qed.

Lemma group_rev_long (a b c d : ascii) (ds : list ascii) :
  group_rev 3 (a :: b :: c :: d :: ds)
  = a :: b :: c :: ","%char :: group_rev 3 (d :: ds).
Proof. reflexivity. Qed.

(** The grouped digits are groups of three behind a first group of one to
    three, with commas between. *)
Lemma group_rev_groups (n : nat) :
  forall ds : list ascii,
    (List.length ds <= n)%nat -> ds <> [] ->
    exists (g0 : string) (gs : list string),
      text (rev (group_rev 3 ds)) = separated "," (g0 :: gs)
      /\ glue (g0 :: gs) = text (rev ds)
      /\ (1 <= String.length g0 <= 3)%nat
      /\ Forall (fun g => String.length g = 3%nat) gs.
Proof.
  induction n as [|n IH]; intros ds Hlen Hne.
  - destruct ds; [congruence | simpl in Hlen; lia].
  - destruct ds as [|a [|b [|c [|d ds]]]]; [congruence| | | |].
    + exists (text [a]), []. repeat split; simpl; auto.
    + exists (text [b; a]), []. repeat split; simpl; auto.
    + exists (text [c; b; a]), []. repeat split; simpl; auto.
    + destruct (IH (d :: ds)) as (g0 & gs & Hsep & Hglue & Hg0 & Hgs).
      { simpl in *. lia. }
      { discriminate. }
      exists g0, (gs ++ [text [c; b; a]])%list. split; [|split; [|split]].
      * rewrite group_rev_long.
        change (a :: b :: c :: ","%char :: group_rev 3 (d :: ds))
          with ([a; b; c; ","%char] ++ group_rev 3 (d :: ds))%list.
        rewrite rev_app_distr, text_app, Hsep.
        rewrite <- !join_separated.
        change (g0 :: gs ++ [text [c; b; a]])%list
          with ((g0 :: gs) ++ [text [c; b; a]])%list.
        rewrite join_snoc. reflexivity.
      * change (g0 :: gs ++ [text [c; b; a]])%list
          with ((g0 :: gs) ++ [text [c; b; a]])%list.
        rewrite glue_snoc, Hglue.
        change (a :: b :: c :: d :: ds)
          with ([a; b; c] ++ (d :: ds))%list.
        rewrite (rev_app_distr [a; b; c]), text_app. reflexivity.
      * exact Hg0.
      * apply Forall_app. split; [exact Hgs|]. constructor; [reflexivity|constructor].
Qed.

Lemma replace_app (old new : ascii) (a b : string) :
  replace old new (a ++ b) = replace old new a ++ replace old new b.
Proof. induction a as [|x a IH]; simpl; [reflexivity | now rewrite IH]. Qed.

Lemma replace_digits (new : ascii) (s : string) :
  forallb is_digit (chars s) = true -> replace "," new s = s.
Proof.
  induction s as [|c s IH]; simpl; [reflexivity|].
  intros H. apply andb_prop in H. destruct H as [Hc Hs].
  rewrite IH by exact Hs.
  destruct (Ascii.eqb_spec c ","); [subst c; discriminate | reflexivity].
Qed.

Lemma replace_separated (gs : list string) :
  forallb is_digit (chars (glue gs)) = true ->
  replace "," "." (separated "," gs) = separated "." gs.
Proof.
  induction gs as [|x [|y gs] IH]; intros H.
  - reflexivity.
  - simpl in *. rewrite append_nil_r in H. now apply replace_digits.
  - change (glue (x :: y :: gs)) with (x ++ glue (y :: gs)) in H.
    rewrite forallb_chars_app in H. apply andb_prop in H. destruct H as [Hx Hr].
    change (separated "," (x :: y :: gs))
      with (x ++ "," ++ separated "," (y :: gs)).
    change (separated "." (x :: y :: gs))
      with (x ++ "." ++ separated "." (y :: gs)).
    rewrite !replace_app, IH by exact Hr.
    now rewrite replace_digits by exact Hx.
Qed.

(** The population text for [0 <= n]: the numeral in groups of three. *)
Lemma population_groups (n : Z) :
  0 <= n ->
  exists (g0 : string) (gs : list string),
    replace "," "." (format_comma n) = separated "." (g0 :: gs)
    /\ glue (g0 :: gs) = str_Z n
    /\ forallb is_digit (chars (glue (g0 :: gs))) = true
    /\ (1 <= String.length g0 <= 3)%nat
    /\ Forall (fun g => String.length g = 3%nat) gs.
Proof.
  intros Hn.
  assert (Hstr : str_Z n = str_N (Z.abs_N n)).
  { unfold str_Z. destruct (Z.ltb_spec n 0); [lia | reflexivity]. }
  destruct (group_rev_groups (List.length (rev (chars (str_N (Z.abs_N n)))))
              (rev (chars (str_N (Z.abs_N n)))))
    as (g0 & gs & Hsep & Hglue & Hg0 & Hgs).
  - apply Nat.le_refl.
  - intros E. apply (f_equal (@rev ascii)) in E. rewrite rev_involutive in E.
    apply (f_equal text) in E. rewrite text_chars in E.
    now apply str_N_nonempty in E.
  - rewrite rev_involutive, text_chars in Hglue.
    assert (Hd : forallb is_digit (chars (glue (g0 :: gs))) = true).
    { rewrite Hglue. apply str_N_digits. }
    exists g0, gs. split; [|split; [|split; [|split]]];
      try assumption; [|now rewrite Hstr].
    unfold format_comma, insert_thousands.
    destruct (Z.ltb_spec n 0); [lia|].
    cbn [String.append]. rewrite Hsep.
    now rewrite replace_separated.
Qed.

End GroupFacts.

(** C6. For a population [0 <= n] the formatter gives the numeral of [n]
    cut into groups of three digits behind a first group of one to three,
    with ['.'] between the groups and nothing else; 1234567 gives
    [1.234.567] and 0 gives [0]. *)
Theorem format_population_groups {number : Type} (self : Renderer number)
    (n : Z) (Hn : 0 <= n) :
  (exists (g0 : string) (gs : list string),
      _format_population (set_population n self)
      = (Ok (separated "." (g0 :: gs)), set_population n self)
      /\ glue (g0 :: gs) = str_Z n
      /\ forallb is_digit (chars (glue (g0 :: gs))) = true
      /\ (1 <= String.length g0 <= 3)%nat
      /\ Forall (fun g => String.length g = 3%nat) gs)
  /\ _format_population (set_population 1234567 self)
     = (Ok "1.234.567", set_population 1234567 self)
  /\ _format_population (set_population 0 self)
     = (Ok "0", set_population 0 self).
Proof.
  split; [|split; reflexivity].
  assert (Hstr : str_Z n = str_N (Z.abs_N n)).
  { unfold str_Z. destruct (Z.ltb_spec n 0); [lia | reflexivity]. }
  destruct (group_rev_groups (List.length (rev (chars (str_N (Z.abs_N n)))))
              (rev (chars (str_N (Z.abs_N n)))))
    as (g0 & gs & Hsep & Hglue & Hg0 & Hgs).
  - apply Nat.le_refl.
  - intros E. apply (f_equal (@rev ascii)) in E. rewrite rev_involutive in E.
    apply (f_equal text) in E. rewrite text_chars in E.
    now apply str_N_nonempty in E.
  - rewrite rev_involutive, text_chars in Hglue.
    assert (Hd : forallb is_digit (chars (glue (g0 :: gs))) = true).
    { rewrite Hglue. apply str_N_digits. }
    exists g0, gs. repeat split; try assumption; try lia.
    + unfold _format_population, bind, get_location_info, ret.
      cbn [set_population set_location location_info location population].
      unfold format_comma, insert_thousands.
      destruct (Z.ltb_spec n 0); [lia|].
      cbn [String.append]. rewrite Hsep.
      now rewrite replace_separated.
    + now rewrite Hstr.
Qed.

(** The population 1234567 in the example record is grouped. *)
Lemma format_population_groups_witness :
  0 <= 1234567 /\
  _format_population (set_population 1234567 (Sample.renderer "UTC+03:00"))
  = (Ok "1.234.567", set_population 1234567 (Sample.renderer "UTC+03:00")).
Proof.
  split; [lia|].
  apply (format_population_groups (Sample.renderer "UTC+03:00") 1234567).
  lia.
Defined.

(** ** Decimals *)

Section DecimalFacts.

#[local] Arguments str_N : simpl never.

Lemma ndigits_small (c : N) : (c < 10)%N -> ndigits c = 1.
Proof. intros H. unfold ndigits. now rewrite str_N_small. Qed.

Lemma ndigits_step (c : N) : (10 <= c)%N -> ndigits c = ndigits (c / 10) + 1.
Proof.
  intros H. unfold ndigits. rewrite (str_N_step c H), length_append. simpl. lia.
Qed.

Lemma ndigits_pos (c : N) : 1 <= ndigits c.
Proof.
  destruct (N.ltb_spec c 10) as [H | H].
  - rewrite ndigits_small by exact H. lia.
  - rewrite ndigits_step by exact H. unfold ndigits. lia.
Qed.

(** A numeral of [k] digits stands for a number in [[10^(k-1), 10^k)]. *)
Lemma ndigits_bounds (c : N) :
  Z.of_N c < 10 ^ ndigits c
  /\ ((0 < c)%N -> 10 ^ (ndigits c - 1) <= Z.of_N c).
Proof.
  induction c as [c IH] using (well_founded_induction N.lt_wf_0).
  destruct (N.ltb_spec c 10) as [H | H].
  - rewrite ndigits_small by exact H. change (10 ^ 1) with 10.
    change (10 ^ (1 - 1)) with 1. lia.
  - rewrite ndigits_step by exact H.
    destruct (IH (c / 10)%N) as [Hup Hlow]; [apply N.div_lt; lia|].
    pose proof (ndigits_pos (c / 10)) as Hp.
    rewrite N2Z.inj_div in Hup, Hlow. change (Z.of_N 10) with 10 in *.
    replace (ndigits (c / 10) + 1 - 1) with (ndigits (c / 10) - 1 + 1) by lia.
    rewrite !Z.pow_add_r by lia. change (10 ^ 1) with 10.
    assert (Hq : (0 < c / 10)%N).
    { apply N.div_str_pos. lia. }
    specialize (Hlow Hq).
    pose proof (Z.div_mod (Z.of_N c) 10 ltac:(lia)) as E.
    pose proof (Z.mod_pos_bound (Z.of_N c) 10 ltac:(lia)) as B.
    split; intros; lia.
Qed.

Lemma two_of_N (m : N) :
  two (Z.of_N m)
  = String (digit_char (m / 10)) (String (digit_char (m mod 10)) "").
Proof.
  unfold two. change 10 with (Z.of_N 10).
  now rewrite <- N2Z.inj_div, <- N2Z.inj_mod, !N2Z.id.
Qed.

(** The text of a decimal with exponent -2: the hundreds upward, a point,
    two digits. *)
Lemma to_str_cents (s : bool) (q : N) :
  to_str {| sign := s; coeff := q; exp := -2 |}
  = (if s then "-" else "") ++ str_N (q / 100) ++ "."
      ++ String (digit_char (q / 10 mod 10)) (String (digit_char (q mod 10)) "").
Proof.
  unfold to_str. cbn [sign coeff exp]. f_equal.
  destruct (N.ltb_spec q 10) as [H1 | H1].
  - rewrite (ndigits_small q H1). cbn.
    rewrite (str_N_small q H1).
    rewrite (N.div_small q 100) by lia. rewrite (N.div_small q 10) by lia.
    rewrite (N.mod_small q 10) by lia. reflexivity.
  - destruct (N.ltb_spec q 100) as [H2 | H2].
    + rewrite (ndigits_step q H1).
      rewrite (ndigits_small (q / 10)) by (apply N.Div0.div_lt_upper_bound; lia).
      cbn. rewrite (str_N_step q H1).
      rewrite (str_N_small (q / 10)) by (apply N.Div0.div_lt_upper_bound; lia).
      rewrite (N.div_small q 100) by lia.
      rewrite (N.mod_small (q / 10) 10) by (apply N.Div0.div_lt_upper_bound; lia).
      reflexivity.
    + assert (H3 : (10 <= q / 10)%N).
      { apply N.div_le_lower_bound; lia. }
      assert (E : (q / 10 / 10 = q / 100)%N).
      { rewrite N.Div0.div_div. reflexivity. }
      rewrite (ndigits_step q H1), (ndigits_step (q / 10) H3), E.
      pose proof (ndigits_pos (q / 100)) as Hp.
      replace (-2 + (ndigits (q / 100) + 1 + 1)) with (ndigits (q / 100)) by lia.
      destruct (Z.leb_spec (-2) 0) as [_ | ?]; [|lia].
      destruct (Z.ltb_spec (-6) (ndigits (q / 100))) as [_ | ?]; [|lia].
      cbn [andb].
      destruct (Z.leb_spec (ndigits (q / 100)) 0) as [? | _]; [lia|].
      destruct (Z.leb_spec (ndigits (q / 100) + 1 + 1) (ndigits (q / 100)))
        as [? | _]; [lia|].
      rewrite Z.eqb_refl.
      rewrite (str_N_step q H1), (str_N_step (q / 10) H3), E.
      rewrite append_assoc. unfold ndigits. rewrite Nat2Z.id.
      rewrite substring_app_left.
      replace (Z.to_nat (Z.of_nat (String.length (str_N (q / 100))) + 1 + 1
                         - Z.of_nat (String.length (str_N (q / 100)))))
        with (String.length
                (String (digit_char (q / 10 mod 10))
                        (String (digit_char (q mod 10)) ""))) by (simpl; lia).
      rewrite substring_app_right. now rewrite append_nil_r.
Qed.

(** Cutting a coefficient before its last [k] digits and bumping it when
    the first digit cut off is 5 or more rounds it half up. *)
Lemma half_up_cut (C T : Z) :
  0 <= C -> 0 < T ->
  C / (10 * T) + (if (5 <=? (C / T) mod 10)%Z then 1 else 0)
  = (2 * C + 10 * T) / (20 * T).
Proof.
  intros HC HT.
  pose proof (Z.div_mod C (10 * T) ltac:(lia)) as E1.
  pose proof (Z.mod_pos_bound C (10 * T) ltac:(lia)) as B1.
  set (a := C / (10 * T)) in *. set (r := C mod (10 * T)) in *.
  pose proof (Z.div_mod r T ltac:(lia)) as E2.
  pose proof (Z.mod_pos_bound r T ltac:(lia)) as B2.
  set (b := r / T) in *. set (t := r mod T) in *.
  assert (Hb : 0 <= b < 10).
  { split; [apply Z.div_pos; lia | apply Z.div_lt_upper_bound; lia]. }
  assert (Hq : C / T = 10 * a + b).
  { symmetry. apply (Z.div_unique C T (10 * a + b) t); [lia|]. lia. }
  assert (Hm : (C / T) mod 10 = b).
  { rewrite Hq. symmetry. apply (Z.mod_unique (10 * a + b) 10 a b); lia. }
  rewrite Hm.
  destruct (Z.leb_spec 5 b) as [H5 | H5].
  - apply (Z.div_unique (2 * C + 10 * T) (20 * T) (a + 1) (2 * r - 10 * T));
      [left; nia | lia].
  - rewrite Z.add_0_r.
    apply (Z.div_unique (2 * C + 10 * T) (20 * T) a (2 * r + 10 * T));
      [left; nia | lia].
Qed.

Lemma half_up_cents_exp_nonneg (d : Decimal) :
  0 <= exp d -> half_up_cents d = Z.of_N (coeff d) * 10 ^ exp d * 100.
Proof.
  intros H. unfold half_up_cents, magnitude.
  destruct (Z.leb_spec 0 (exp d)); [|lia].
  unfold Qfloor, Qplus, Qmult, inject_Z. cbn [Qnum Qden].
  change (Z.pos (1 * 1 * 2)) with 2. change (Z.pos (1 * 1)) with 1.
  symmetry. apply (Z.div_unique _ 2 _ 1); lia.
Qed.

Lemma half_up_cents_exp_neg (d : Decimal) :
  exp d < 0 ->
  half_up_cents d
  = (200 * Z.of_N (coeff d) + 10 ^ (- exp d)) / (2 * 10 ^ (- exp d)).
Proof.
  intros H. unfold half_up_cents, magnitude.
  destruct (Z.leb_spec 0 (exp d)); [lia|].
  assert (HP : 0 < 10 ^ (- exp d)) by (apply Z.pow_pos_nonneg; lia).
  unfold Qfloor, Qplus, Qmult, inject_Z. cbn [Qnum Qden].
  rewrite !Pos2Z.inj_mul, Z2Pos.id by exact HP.
  f_equal; lia.
Qed.

Lemma half_up_cents_nonneg (d : Decimal) : 0 <= half_up_cents d.
Proof.
  destruct (Z.leb_spec 0 (exp d)) as [H | H].
  - rewrite half_up_cents_exp_nonneg by exact H.
    assert (0 < 10 ^ exp d) by (apply Z.pow_pos_nonneg; lia). nia.
  - rewrite half_up_cents_exp_neg by exact H.
    assert (0 < 10 ^ (- exp d)) by (apply Z.pow_pos_nonneg; lia).
    apply Z.div_pos; lia.
Qed.

(** [_rescale] to exponent -2 computes the hundredths rounded half up. *)
Lemma rescale_cents (d : Decimal) :
  rescale d (-2)
  = {| sign := sign d; coeff := Z.to_N (half_up_cents d); exp := -2 |}.
Proof.
  unfold rescale.
  destruct (N.eqb_spec (coeff d) 0) as [H0 | H0].
  { f_equal. destruct (Z.leb_spec 0 (exp d)) as [H | H].
    - rewrite half_up_cents_exp_nonneg, H0 by exact H. reflexivity.
    - rewrite half_up_cents_exp_neg, H0 by exact H.
      assert (0 < 10 ^ (- exp d)) by (apply Z.pow_pos_nonneg; lia).
      rewrite Z.div_small by lia. reflexivity. }
  destruct (Z.leb_spec (-2) (exp d)) as [H2 | H2].
  { f_equal. apply N2Z.inj.
    rewrite Z2N.id by apply half_up_cents_nonneg.
    rewrite N2Z.inj_mul, N2Z.inj_pow, Z2N.id by lia.
    change (Z.of_N 10) with 10.
    destruct (Z.leb_spec 0 (exp d)) as [H | H].
    - rewrite half_up_cents_exp_nonneg by exact H.
      replace (exp d - -2) with (exp d + 2) by lia.
      rewrite Z.pow_add_r by lia. change (10 ^ 2) with 100. lia.
    - rewrite half_up_cents_exp_neg by exact H.
      assert (E : exp d = -1 \/ exp d = -2) by lia.
      destruct E as [E | E]; rewrite E.
      + change (10 ^ (- -1)) with 10. change (10 ^ (-1 - -2)) with 10.
        apply (Z.div_unique _ _ _ 10); lia.
      + change (10 ^ (- -2)) with 100. change (10 ^ (-2 - -2)) with 1.
        apply (Z.div_unique _ _ _ 100); lia. }
  rewrite half_up_cents_exp_neg by lia.
  pose proof (ndigits_bounds (coeff d)) as [Hup Hlow].
  specialize (Hlow ltac:(lia)).
  pose proof (ndigits_pos (coeff d)) as Hlen.
  set (C := Z.of_N (coeff d)) in *.
  set (k := - exp d - 2).
  assert (Hk : 1 <= k) by (unfold k; lia).
  assert (HP : 10 ^ (- exp d) = 100 * 10 ^ k).
  { replace (- exp d) with (2 + k) by (unfold k; lia).
    rewrite Z.pow_add_r by lia. reflexivity. }
  assert (HT : 0 < 10 ^ (k - 1)) by (apply Z.pow_pos_nonneg; lia).
  assert (HK : 10 ^ k = 10 * 10 ^ (k - 1)).
  { replace k with (1 + (k - 1)) at 1 by lia.
    rewrite Z.pow_add_r by lia. reflexivity. }
  destruct (Z.ltb_spec (ndigits (coeff d) + exp d - -2) 0) as [Hd | Hd].
  - (* fewer digits than are cut: the result is zero *)
    f_equal. rewrite Z.div_small; [reflexivity|].
    assert (10 ^ ndigits (coeff d) <= 10 ^ (k - 1)).
    { apply Z.pow_le_mono_r; unfold k; lia. }
    rewrite HP, HK. fold C. nia.
  - f_equal. apply N2Z.inj.
    replace (Z.to_N (ndigits (coeff d) - (ndigits (coeff d) + exp d - -2)))
      with (Z.to_N k) by (f_equal; unfold k; lia).
    assert (E : Z.of_N (if (5 <=? (coeff d / 10 ^ (Z.to_N k - 1)) mod 10)%N
                        then (coeff d / 10 ^ Z.to_N k + 1)%N
                        else (coeff d / 10 ^ Z.to_N k)%N)
                = C / (10 * 10 ^ (k - 1))
                  + (if (5 <=? (C / 10 ^ (k - 1)) mod 10)%Z then 1 else 0)).
    { assert (E1 : Z.of_N (coeff d / 10 ^ Z.to_N k) = C / (10 * 10 ^ (k - 1))).
      { rewrite N2Z.inj_div, N2Z.inj_pow, Z2N.id by lia.
        change (Z.of_N 10) with 10. now rewrite HK. }
      assert (E2 : Z.of_N ((coeff d / 10 ^ (Z.to_N k - 1)) mod 10)
                   = (C / 10 ^ (k - 1)) mod 10).
      { rewrite N2Z.inj_mod, N2Z.inj_div, N2Z.inj_pow, N2Z.inj_sub by lia.
        rewrite Z2N.id by lia. reflexivity. }
      destruct (N.leb_spec 5 ((coeff d / 10 ^ (Z.to_N k - 1)) mod 10)) as [L | L];
        destruct (Z.leb_spec 5 ((C / 10 ^ (k - 1)) mod 10)) as [L' | L'];
        lia. }
    rewrite E, Z2N.id.
    + rewrite half_up_cut by lia. rewrite HP, HK.
      replace (200 * C + 100 * (10 * 10 ^ (k - 1)))
        with (100 * (2 * C + 10 * 10 ^ (k - 1))) by lia.
      replace (2 * (100 * (10 * 10 ^ (k - 1))))
        with (100 * (20 * 10 ^ (k - 1))) by lia.
      rewrite Z.div_mul_cancel_l by lia. reflexivity.
    + apply Z.div_pos; lia.
Qed.

(** A coefficient too long for the context rounds to [10^28] hundredths or
    more. *)
Lemma half_up_cents_large (d : Decimal) :
  coeff d <> 0%N -> prec < exp d + ndigits (coeff d) + 2 ->
  10 ^ prec <= half_up_cents d.
Proof.
  intros H0 Hlong. unfold prec in *.
  pose proof (ndigits_bounds (coeff d)) as [_ Hlow].
  specialize (Hlow ltac:(lia)).
  pose proof (ndigits_pos (coeff d)) as Hlen.
  set (C := Z.of_N (coeff d)) in *. set (len := ndigits (coeff d)) in *.
  destruct (Z.leb_spec 0 (exp d)) as [H | H].
  - rewrite half_up_cents_exp_nonneg by exact H. fold C.
    assert (E : 10 ^ (len - 1) * 10 ^ exp d * 100 = 10 ^ (len - 1 + exp d + 2)).
    { rewrite !Z.pow_add_r by lia. reflexivity. }
    assert (10 ^ 28 <= 10 ^ (len - 1 + exp d + 2))
      by (apply Z.pow_le_mono_r; lia).
    assert (0 < 10 ^ exp d) by (apply Z.pow_pos_nonneg; lia).
    nia.
  - rewrite half_up_cents_exp_neg by exact H. fold C.
    assert (HP : 0 < 10 ^ (- exp d)) by (apply Z.pow_pos_nonneg; lia).
    assert (E : 10 ^ (- exp d) * 10 ^ 26 = 10 ^ (- exp d + 26)).
    { rewrite Z.pow_add_r by lia. reflexivity. }
    assert (10 ^ (- exp d + 26) <= 10 ^ (len - 1))
      by (apply Z.pow_le_mono_r; lia).
    apply Z.div_le_lower_bound; [lia|].
    change (10 ^ 28) with (100 * 10 ^ 26). nia.
Qed.

(** [quantize] to two places under the default context. *)
Lemma quantize_cent (d : Decimal) :
  quantize d cent
  = if fits_context d
    then Ok {| sign := sign d; coeff := Z.to_N (half_up_cents d); exp := -2 |}
    else Err InvalidOperation.
Proof.
  unfold quantize, quantize_in, fits_context.
  change (ctx_prec DefaultContext) with prec.
  change (ctx_Emax DefaultContext) with Emax.
  change (negb ((ctx_Etiny DefaultContext <=? exp cent)%Z
                && (exp cent <=? Emax)%Z)) with false.
  cbn [exp cent]. cbv iota.
  pose proof (half_up_cents_nonneg d) as Hq.
  pose proof (rescale_cents d) as Hr.
  destruct (N.eqb_spec (coeff d) 0) as [H0 | H0].
  { unfold rescale in Hr. rewrite (proj2 (N.eqb_eq _ _) H0) in Hr.
    injection Hr as Hr.
    assert (E : half_up_cents d = 0) by lia.
    rewrite E. reflexivity. }
  unfold adjusted at 1 2.
  destruct (Z.ltb_spec Emax (exp d + ndigits (coeff d) - 1)) as [A | A].
  { pose proof (half_up_cents_large d H0) as L. unfold Emax, prec in *.
    destruct (Z.ltb_spec (half_up_cents d) (10 ^ 28)); [lia | reflexivity]. }
  destruct (Z.ltb_spec prec (exp d + ndigits (coeff d) - 1 - -2 + 1)) as [B | B].
  { pose proof (half_up_cents_large d H0) as L.
    destruct (Z.ltb_spec (half_up_cents d) (10 ^ prec)); [lia | reflexivity]. }
  rewrite Hr. unfold adjusted. cbn [coeff exp].
  pose proof (ndigits_bounds (Z.to_N (half_up_cents d))) as [Hup Hlow].
  pose proof (ndigits_pos (Z.to_N (half_up_cents d))) as Hlen.
  rewrite Z2N.id in Hup, Hlow by exact Hq.
  set (len := ndigits (Z.to_N (half_up_cents d))) in *.
  assert (Hbig : prec < len -> 10 ^ prec <= half_up_cents d).
  { intros L. unfold prec in *.
    assert (0 < Z.to_N (half_up_cents d))%N.
    { destruct (N.eq_dec (Z.to_N (half_up_cents d)) 0) as [E | E]; [|lia].
      unfold len in L. rewrite E in L. change (ndigits 0) with 1 in L. lia. }
    specialize (Hlow ltac:(assumption)).
    assert (10 ^ 28 <= 10 ^ (len - 1)) by (apply Z.pow_le_mono_r; lia).
    lia. }
  destruct (Z.ltb_spec Emax (-2 + len - 1)) as [A' | A'].
  { unfold Emax in A'. specialize (Hbig ltac:(unfold prec; lia)).
    destruct (Z.ltb_spec (half_up_cents d) (10 ^ prec)); [lia | reflexivity]. }
  destruct (Z.ltb_spec prec len) as [B' | B'].
  { specialize (Hbig B').
    destruct (Z.ltb_spec (half_up_cents d) (10 ^ prec)); [lia | reflexivity]. }
  assert (10 ^ len <= 10 ^ prec) by (apply Z.pow_le_mono_r; lia).
  destruct (Z.ltb_spec (half_up_cents d) (10 ^ prec)); [reflexivity | lia].
Qed.

Lemma to_str_two_places (d : Decimal) :
  to_str {| sign := sign d; coeff := Z.to_N (half_up_cents d); exp := -2 |}
  = two_places d.
Proof.
  pose proof (half_up_cents_nonneg d) as Hq.
  rewrite to_str_cents. unfold two_places.
  set (q := half_up_cents d) in *.
  assert (E1 : (Z.to_N q / 100)%N = Z.to_N (q / 100)).
  { apply N2Z.inj. rewrite N2Z.inj_div, !Z2N.id; try lia.
    apply Z.div_pos; lia. }
  assert (E2 : two (q mod 100)
               = String (digit_char (Z.to_N q / 10 mod 10))
                        (String (digit_char (Z.to_N q mod 10)) "")).
  { pose proof (Z.mod_pos_bound q 100 ltac:(lia)) as B.
    rewrite <- (Z2N.id (q mod 100)) by lia. rewrite two_of_N.
    assert (Ea : (Z.to_N (q mod 100) / 10 = Z.to_N q / 10 mod 10)%N).
    { apply N2Z.inj.
      rewrite N2Z.inj_div, N2Z.inj_mod, N2Z.inj_div, !Z2N.id by lia.
      change (Z.of_N 10) with 10.
      replace 100 with (10 * 10) by reflexivity.
      rewrite Z.rem_mul_r by lia.
      rewrite (Z.mul_comm 10 ((q / 10) mod 10)), Z.div_add by lia.
      rewrite (Z.div_small (q mod 10) 10) by (apply Z.mod_pos_bound; lia).
      reflexivity. }
    assert (Eb : (Z.to_N (q mod 100) mod 10 = Z.to_N q mod 10)%N).
    { apply N2Z.inj.
      rewrite !N2Z.inj_mod, !Z2N.id by lia.
      change (Z.of_N 10) with 10.
      replace 100 with (10 * 10) by reflexivity.
      rewrite Z.rem_mul_r by lia.
      rewrite (Z.mul_comm 10 ((q / 10) mod 10)), Z.mod_add by lia.
      apply Z.mod_mod. lia. }
    now rewrite Ea, Eb. }
  now rewrite E1, E2.
Qed.

End DecimalFacts.

(** ** Currency rates *)

Section CurrencyFacts.

Context {number : Type}.

Let entry (context : Context) : string * Decimal -> M number string :=
  fun '(currency, rates) =>
    q <- lift (quantize_in context rates cent) ;;
    ret (currency ++ " = " ++ to_str q ++ " руб.").

Lemma entry_fits (item : string * Decimal) (self : Renderer number) :
  fits_context (snd item) = true ->
  entry DefaultContext item self = (Ok (currency_entry item), self).
Proof.
  destruct item as [currency rate]. cbn [snd]. intros Hfit.
  unfold entry, bind, lift, ret.
  change (quantize_in DefaultContext rate cent) with (quantize rate cent).
  rewrite quantize_cent, Hfit.
  rewrite to_str_two_places. reflexivity.
Qed.

Lemma entry_overflows (item : string * Decimal) (self : Renderer number) :
  fits_context (snd item) = false ->
  entry DefaultContext item self = (Err InvalidOperation, self).
Proof.
  destruct item as [currency rate]. cbn [snd]. intros Hfit.
  unfold entry, bind, lift, ret.
  change (quantize_in DefaultContext rate cent) with (quantize rate cent).
  now rewrite quantize_cent, Hfit.
Qed.

Lemma entries_fit (rates : list (string * Decimal)) (self : Renderer number) :
  forallb (fun item => fits_context (snd item)) rates = true ->
  mapM (entry DefaultContext) rates self
  = (Ok (map currency_entry rates), self).
Proof.
  induction rates as [|item rates IH]; intros Hfit; [reflexivity|].
  cbn [forallb] in Hfit. apply andb_prop in Hfit. destruct Hfit as [H1 H2].
  cbn [mapM map]. unfold bind at 1. rewrite (entry_fits item self H1).
  unfold bind at 1. rewrite (IH H2). reflexivity.
Qed.

Lemma entries_overflow (rates : list (string * Decimal)) (self : Renderer number) :
  forallb (fun item => fits_context (snd item)) rates = false ->
  mapM (entry DefaultContext) rates self = (Err InvalidOperation, self).
Proof.
  induction rates as [|item rates IH]; intros Hfit; [discriminate|].
  cbn [forallb] in Hfit. cbn [mapM]. unfold bind at 1.
  destruct (fits_context (snd item)) eqn:H1.
  - rewrite (entry_fits item self H1). unfold bind at 1.
    rewrite (IH Hfit). reflexivity.
  - now rewrite (entry_overflows item self H1).
Qed.

(** The currency formatter on any record. *)
Lemma format_currency_rates_result (self : Renderer number) :
  _format_currency_rates self
  = (if forallb (fun item => fits_context (snd item))
                (currency_rates (location_info self))
     then Ok (separated ", "
                (map currency_entry (currency_rates (location_info self))))
     else Err InvalidOperation,
     self).
Proof.
  unfold _format_currency_rates, _format_currency_rates_in.
  unfold bind at 1, get_location_info.
  fold (entry DefaultContext). unfold bind.
  destruct (forallb _ (currency_rates (location_info self))) eqn:Hfit.
  - rewrite (entries_fit _ self Hfit). unfold ret.
    now rewrite join_separated.
  - now rewrite (entries_overflow _ self Hfit).
Qed.

(** Under any context the currency formatter leaves the object alone. *)
Lemma entries_state (context : Context) (rates : list (string * Decimal))
    (self : Renderer number) :
  snd (mapM (entry context) rates self) = self.
Proof.
  induction rates as [|[currency rate] rates IH]; [reflexivity|].
  cbn [mapM]. unfold bind at 1. unfold entry at 1.
  unfold bind at 1, lift, ret at 1.
  destruct (quantize_in context rate cent) as [q|e]; [|reflexivity].
  unfold bind. destruct (mapM (entry context) rates self) as [[ys|e] s'];
    exact IH.
Qed.

Lemma format_currency_rates_in_shape (context : Context)
    (self : Renderer number) :
  _format_currency_rates_in context self
  = (match fst (mapM (entry context)
                     (currency_rates (location_info self)) self) with
     | Ok entries => Ok (join ", " entries)
     | Err e => Err e
     end, self).
Proof.
  unfold _format_currency_rates_in.
  unfold bind at 1, get_location_info.
  fold (entry context). unfold bind.
  pose proof (entries_state context (currency_rates (location_info self)) self)
    as H.
  destruct (mapM (entry context) _ self) as [[ys|e] s'];
    cbn [snd fst] in *; now subst s'.
Qed.

Lemma format_currency_rates_in_state (context : Context)
    (self : Renderer number) :
  _format_currency_rates_in context self
  = (fst (_format_currency_rates_in context self), self).
Proof. now rewrite format_currency_rates_in_shape. Qed.




End CurrencyFacts.

(** C4, as the code has it.  When every rate, rounded half up to
    hundredths in exact decimal arithmetic, has at most 28 digits, the
    currency formatter gives [CODE = X.XX руб.] for the pairs in iteration
    order with [", "] between them; 2.005 gives [2.01], 2.0 gives [2.00] and
    0.004 gives [0.00]. *)
Theorem format_currency_rates_rounds {number : Type} (self : Renderer number)
    (rates : list (string * Decimal))
    (Hfit : forallb (fun item => fits_context (snd item)) rates = true) :
  _format_currency_rates (set_currency_rates rates self)
  = (Ok (separated ", " (map currency_entry rates)),
     set_currency_rates rates self)
  /\ two_places (Sample.dec 2005 (-3)) = "2.01"
  /\ two_places (Sample.dec 20 (-1)) = "2.00"
  /\ two_places (Sample.dec 4 (-3)) = "0.00"
  /\ _format_currency_rates (set_currency_rates Sample.rates self)
     = (Ok "USD = 2.01 руб., EUR = 2.00 руб., GBP = 0.00 руб.",
        set_currency_rates Sample.rates self).
Proof.
  split; [|repeat split; reflexivity].
  rewrite format_currency_rates_result.
  cbn [set_currency_rates location_info currency_rates].
  now rewrite Hfit.
Qed.

(** The three rates of the example record fit and are rendered. *)
Lemma format_currency_rates_rounds_witness :
  forallb (fun item => fits_context (snd item)) Sample.rates = true
  /\ _format_currency_rates
       (set_currency_rates Sample.rates (Sample.renderer "UTC+03:00"))
     = (Ok (separated ", " (map currency_entry Sample.rates)),
        set_currency_rates Sample.rates (Sample.renderer "UTC+03:00")).
Proof.
  split; [reflexivity|].
  apply (format_currency_rates_rounds (Sample.renderer "UTC+03:00") Sample.rates).
  reflexivity.
Defined.

(** C4 as stated fails: the rate 1E+27 is an exact decimal, and the
    formatter raises instead of rendering it rounded. *)
Lemma format_currency_rates_huge_rate :
  _format_currency_rates
    (set_currency_rates [("USD", Sample.dec 1 27)] (Sample.renderer "UTC+03:00"))
  = (Err InvalidOperation,
     set_currency_rates [("USD", Sample.dec 1 27)] (Sample.renderer "UTC+03:00"))
  /\ fst (_format_currency_rates
            (set_currency_rates [("USD", Sample.dec 1 27)]
                                (Sample.renderer "UTC+03:00")))
     <> Ok (separated ", " (map currency_entry [("USD", Sample.dec 1 27)])).
Proof.
  assert (E : _format_currency_rates
                (set_currency_rates [("USD", Sample.dec 1 27)]
                                    (Sample.renderer "UTC+03:00"))
              = (Err InvalidOperation,
                 set_currency_rates [("USD", Sample.dec 1 27)]
                                    (Sample.renderer "UTC+03:00")))
    by reflexivity.
  split; [exact E|]. rewrite E. discriminate.
Qed.

(** ** Characters and digits *)

Section CharacterFacts.

Variable unicode_decimal : string -> option Z.

Lemma split_at_app (n : nat) :
  forall s h t : string,
    split_at n s = Some (h, t) -> s = h ++ t /\ String.length h = n.
Proof.
  induction n as [|n IH]; intros s h t; cbn [split_at].
  - intros H. injection H as <- <-. now split.
  - destruct s as [|c r]; [discriminate|].
    destruct (split_at n r) as [[h' t']|] eqn:E; [|discriminate].
    intros H. injection H as <- <-.
    destruct (IH _ _ _ E) as [-> <-]. now split.
Qed.

Lemma split_at_more (n : nat) :
  forall s h t x : string,
    split_at n s = Some (h, t) -> split_at n (s ++ x) = Some (h, t ++ x).
Proof.
  induction n as [|n IH]; intros s h t x; cbn [split_at].
  - intros H. now injection H as <- <-.
  - destruct s as [|c r]; [discriminate|].
    destruct (split_at n r) as [[h' t']|] eqn:E; [|discriminate].
    intros H. injection H as <- <-.
    cbn [String.append]. now rewrite (IH _ _ _ x E).
Qed.

Lemma split_at_all (s : string) : split_at (String.length s) s = Some (s, "").
Proof.
  induction s as [|c s IH]; cbn [String.length split_at];
    [reflexivity | now rewrite IH].
Qed.

(** The first character is a prefix and is itself one character. *)
Lemma head_char_split (s ch rest : string) :
  head_char s = Some (ch, rest) ->
  s = ch ++ rest /\ head_char ch = Some (ch, "") /\ ch <> "".
Proof.
  destruct s as [|c r]; [discriminate|]. unfold head_char.
  destruct (char_width c) as [|w] eqn:W; [discriminate|]. intros H.
  destruct (split_at_app _ _ _ _ H) as [E L].
  destruct ch as [|c' ch']; [discriminate|].
  cbn [String.append] in E. injection E as <- E.
  split; [now rewrite E|]. split; [|discriminate].
  rewrite W, <- L. apply split_at_all.
Qed.

Lemma head_char_app (ch rest : string) :
  head_char ch = Some (ch, "") -> head_char (ch ++ rest) = Some (ch, rest).
Proof.
  destruct ch as [|c r]; [discriminate|]. cbn [String.append].
  unfold head_char. destruct (char_width c); [discriminate|]. intros H.
  exact (split_at_more _ _ _ _ rest H).
Qed.

Lemma digit_of_head (ch : string) (v : Z) :
  digit_of unicode_decimal ch = Some v ->
  head_char ch = Some (ch, "") /\ decimal unicode_decimal ch = Some v.
Proof.
  unfold digit_of. destruct (head_char ch) as [[c t]|] eqn:E; [|discriminate].
  destruct t; [|discriminate]. intros D.
  destruct (head_char_split _ _ _ E) as (E1 & _ & _).
  rewrite append_nil_r in E1. subst c. now split.
Qed.

Lemma digit_of_at (ch : string) (v : Z) (rest : string) :
  digit_of unicode_decimal ch = Some v ->
  digit_at unicode_decimal (ch ++ rest) = Some (ch, v, rest).
Proof.
  intros D. destruct (digit_of_head ch v D) as [H Hd].
  unfold digit_at. now rewrite (head_char_app ch rest H), Hd.
Qed.

Lemma digit_at_of (s ch : string) (v : Z) (rest : string) :
  digit_at unicode_decimal s = Some (ch, v, rest) ->
  s = ch ++ rest /\ digit_of unicode_decimal ch = Some v.
Proof.
  unfold digit_at. destruct (head_char s) as [[c t]|] eqn:E; [|discriminate].
  destruct (decimal unicode_decimal c) as [w|] eqn:D; [|discriminate].
  intros H. injection H as <- <- <-.
  destruct (head_char_split _ _ _ E) as (E1 & E2 & _).
  split; [exact E1|]. unfold digit_of. now rewrite E2.
Qed.

Lemma is_digit_range (c : ascii) :
  is_digit c = true -> 0 <= digit_value c <= 9.
Proof.
  unfold is_digit, digit_value. intros H.
  apply andb_prop in H. destruct H as [H1 H2].
  apply N.leb_le in H1. apply N.leb_le in H2. lia.
Qed.

Lemma is_digit_width (c : ascii) : is_digit c = true -> char_width c = 1%nat.
Proof.
  unfold is_digit, char_width. intros H.
  apply andb_prop in H. destruct H as [_ H]. apply N.leb_le in H.
  cbv zeta. destruct (N.ltb_spec (N_of_ascii c) 128); [reflexivity | lia].
Qed.

(** A decimal digit stands for one of 0 to 9. *)
Lemma digit_of_range (ch : string) (v : Z) :
  digit_of unicode_decimal ch = Some v -> 0 <= v <= 9.
Proof.
  intros D. destruct (digit_of_head ch v D) as [_ Hd]. revert Hd.
  unfold decimal. destruct ch as [|c [|c' r]]; [discriminate| |].
  - destruct (is_digit c) eqn:E; [|discriminate].
    intros H. injection H as <-. now apply is_digit_range.
  - destruct (unicode_decimal _) as [w|]; [|discriminate].
    destruct (Z.leb_spec 0 w) as [L0 | L0]; [|discriminate].
    destruct (Z.leb_spec w 9) as [L9 | L9]; [|discriminate].
    intros E. injection E as <-. lia.
Qed.

(** An ASCII digit is a decimal digit, whatever the table holds. *)
Lemma digit_of_ascii (c : ascii) :
  is_digit c = true ->
  digit_of unicode_decimal (String c "") = Some (digit_value c).
Proof.
  intros H. unfold digit_of, head_char. rewrite (is_digit_width c H).
  cbn [split_at]. unfold decimal. now rewrite H.
Qed.

(** A decimal digit is the ASCII zero or does not start with its byte. *)
Lemma digit_of_zero (ch : string) (v : Z) :
  digit_of unicode_decimal ch = Some v ->
  (ch = "0" /\ v = 0)
  \/ exists c r, ch = String c r /\ Ascii.eqb c "0" = false.
Proof.
  intros D. destruct (digit_of_head ch v D) as [H Hd].
  destruct ch as [|c r]; [discriminate|].
  destruct (Ascii.eqb_spec c "0") as [-> | Hc].
  - left. cbn in H. destruct r; [|discriminate].
    cbn in Hd. injection Hd as <-. now split.
  - right. exists c, r. split; [reflexivity|].
    now apply Ascii.eqb_neq.
Qed.

Lemma piece_offset_digits (p : Piece) (h m : Z) :
  piece_offset unicode_decimal p = Some (h, m) ->
  Re.is_sign (p_sign p) = true
  /\ exists a b c d,
       digit_of unicode_decimal (p_h1 p) = Some a
       /\ digit_of unicode_decimal (p_h2 p) = Some b
       /\ digit_of unicode_decimal (p_m1 p) = Some c
       /\ digit_of unicode_decimal (p_m2 p) = Some d
       /\ h = 10 * a + b /\ m = 10 * c + d.
Proof.
  unfold piece_offset.
  destruct (Re.is_sign (p_sign p)); [|discriminate].
  destruct (digit_of _ (p_h1 p)) as [a|]; [|discriminate].
  destruct (digit_of _ (p_h2 p)) as [b|]; [|discriminate].
  destruct (digit_of _ (p_m1 p)) as [c|]; [|discriminate].
  destruct (digit_of _ (p_m2 p)) as [d|]; [|discriminate].
  intros H. injection H as <- <-. split; [reflexivity|].
  now exists a, b, c, d.
Qed.

(** The hours and minutes of a piece are two-digit numbers. *)
Lemma piece_offset_range (p : Piece) (h m : Z) :
  piece_offset unicode_decimal p = Some (h, m) ->
  0 <= h <= 99 /\ 0 <= m <= 99.
Proof.
  intros H. apply piece_offset_digits in H.
  destruct H as (_ & a & b & c & d & Ha & Hb & Hc & Hd & -> & ->).
  apply digit_of_range in Ha, Hb, Hc, Hd. lia.
Qed.

Lemma piece_offset_ascii (sg h1 h2 m1 m2 : ascii) :
  offset_chars sg h1 h2 m1 m2 = true ->
  piece_offset unicode_decimal (ascii_piece sg h1 h2 m1 m2)
  = Some (two_digits h1 h2, two_digits m1 m2).
Proof.
  unfold offset_chars. intros H.
  repeat (apply andb_prop in H; destruct H as [H ?]).
  unfold piece_offset, ascii_piece.
  cbn [p_sign p_h1 p_h2 p_m1 p_m2]. rewrite H.
  now rewrite !digit_of_ascii by assumption.
Qed.

End CharacterFacts.

(** ** The timezone pattern *)

Section PatternFacts.

Variable unicode_decimal : string -> option Z.

Lemma match_at_complete (p : Piece) (h m : Z) (post : string) :
  piece_offset unicode_decimal p = Some (h, m) ->
  Re.match_at unicode_decimal (piece_text p ++ post) = Some (groups_of p).
Proof.
  intros H. apply piece_offset_digits in H.
  destruct H as (Hs & a & b & c & d & Ha & Hb & Hc & Hd & _).
  destruct p as [sg d1 d2 d3 d4].
  unfold piece_text, groups_of in *. cbn [p_sign p_h1 p_h2 p_m1 p_m2] in *.
  cbn [String.append]. rewrite !append_assoc. cbn [String.append].
  unfold Re.match_at. rewrite !Ascii.eqb_refl, Hs. cbn [andb].
  rewrite (digit_of_at _ d1 a _ Ha), (digit_of_at _ d2 b _ Hb).
  rewrite Ascii.eqb_refl, append_assoc.
  now rewrite (digit_of_at _ d3 c _ Hc), (digit_of_at _ d4 d _ Hd).
Qed.

Lemma match_at_sound (s : string) (mt : Re.Match) :
  Re.match_at unicode_decimal s = Some mt ->
  exists p h m post,
    piece_offset unicode_decimal p = Some (h, m)
    /\ s = piece_text p ++ post
    /\ mt = groups_of p.
Proof.
  unfold Re.match_at.
  destruct s as [|u [|t [|c [|sg r]]]]; try discriminate.
  destruct (_ && _) eqn:E; [|discriminate].
  destruct (digit_at unicode_decimal r) as [[[d1 a] r1]|] eqn:E1;
    [|discriminate].
  destruct (digit_at unicode_decimal r1) as [[[d2 b] [|co r2]]|] eqn:E2;
    try discriminate.
  destruct (Ascii.eqb_spec co ":") as [-> |]; [|discriminate].
  destruct (digit_at unicode_decimal r2) as [[[d3 c'] r3]|] eqn:E3;
    [|discriminate].
  destruct (digit_at unicode_decimal r3) as [[[d4 d] post]|] eqn:E4;
    [|discriminate].
  intros H. injection H as <-.
  repeat (apply andb_prop in E; destruct E as [E ?]).
  repeat match goal with
         | E : Ascii.eqb _ _ = true |- _ => apply Ascii.eqb_eq in E; subst
         end.
  apply digit_at_of in E1, E2, E3, E4.
  destruct E1 as [-> Ha], E2 as [-> Hb], E3 as [-> Hc], E4 as [-> Hd].
  exists {| p_sign := sg; p_h1 := d1; p_h2 := d2; p_m1 := d3; p_m2 := d4 |},
    (10 * a + b), (10 * c' + d), post.
  split; [|split; [|reflexivity]].
  - unfold piece_offset. cbn [p_sign p_h1 p_h2 p_m1 p_m2].
    match goal with H : Re.is_sign sg = true |- _ => rewrite H end.
    now rewrite Ha, Hb, Hc, Hd.
  - unfold piece_text. cbn [p_sign p_h1 p_h2 p_m1 p_m2 String.append].
    rewrite !append_assoc. cbn [String.append].
    now rewrite append_assoc.
Qed.

Lemma offset_after_nil (s : string) (p : Piece) (h m : Z) :
  offset_after unicode_decimal "" s p h m ->
  Re.match_at unicode_decimal s = Some (groups_of p).
Proof.
  intros [Hc [post E]]. subst s. now apply (match_at_complete p h m).
Qed.

Lemma offset_after_cons (c : ascii) (pre r : string) (p : Piece) (h m : Z) :
  offset_after unicode_decimal (String c pre) (String c r) p h m
  <-> offset_after unicode_decimal pre r p h m.
Proof.
  unfold offset_after. split; intros [Hc [post E]]; (split; [exact Hc|]);
    exists post.
  - cbn [String.append] in E. now injection E.
  - cbn [String.append]. now rewrite E.
Qed.

Lemma offset_after_head (pre : string) (c : ascii) (r : string)
    (p : Piece) (h m : Z) :
  offset_after unicode_decimal pre (String c r) p h m ->
  pre = "" \/ exists pre', pre = String c pre'.
Proof.
  intros [_ [post E]]. destruct pre as [|x pre]; [now left|right].
  cbn [String.append] in E. injection E as E _. subst x. now exists pre.
Qed.

(** [search] finds the first piece of the shape. *)
Lemma search_first (pre : string) :
  forall (tz : string) (p : Piece) (h m : Z),
    first_offset unicode_decimal pre tz p h m ->
    Re.search unicode_decimal tz = Some (groups_of p).
Proof.
  induction pre as [|c pre IH]; intros tz p h m [Hat Hmin].
  - destruct tz; cbn [Re.search]; now rewrite (offset_after_nil _ _ _ _ Hat).
  - destruct Hat as [Hc [post E]]. cbn [String.append] in E. subst tz.
    cbn [Re.search].
    destruct (Re.match_at unicode_decimal
                (String c (pre ++ piece_text p ++ post))) as [mt|] eqn:Em.
    + apply match_at_sound in Em.
      destruct Em as (p' & h' & m' & post' & Hc' & E' & _).
      assert (Hat' : offset_after unicode_decimal ""
                       (String c (pre ++ piece_text p ++ post)) p' h' m').
      { split; [exact Hc'|]. now exists post'. }
      apply Hmin in Hat'. simpl in Hat'. lia.
    + apply (IH _ p h m). split.
      * split; [exact Hc|]. now exists post.
      * intros pre' p' h' m' Hat'.
        apply (proj2 (offset_after_cons c _ _ _ _ _)) in Hat'.
        apply Hmin in Hat'. simpl in Hat'. lia.
Qed.

Lemma search_found (tz : string) (mt : Re.Match) :
  Re.search unicode_decimal tz = Some mt ->
  exists pre p h m,
    first_offset unicode_decimal pre tz p h m /\ mt = groups_of p.
Proof.
  induction tz as [|c r IH]; cbn [Re.search].
  - discriminate.
  - destruct (Re.match_at unicode_decimal (String c r)) as [mt'|] eqn:Em.
    + intros H. injection H as H. subst mt'.
      apply match_at_sound in Em.
      destruct Em as (p & h & m & post & Hc & E & Hm).
      exists "", p, h, m. split; [|exact Hm]. split.
      * split; [exact Hc|]. now exists post.
      * intros. simpl. lia.
    + intros H. destruct (IH H) as (pre & p & h & m & [Hat Hmin] & Hm).
      exists (String c pre), p, h, m. split; [|exact Hm]. split.
      * now apply (proj2 (offset_after_cons c _ _ _ _ _)).
      * intros pre' p' h' m' Hat'.
        destruct (offset_after_head _ _ _ _ _ _ Hat') as [E | [q E]];
          subst pre'.
        -- apply offset_after_nil in Hat'. congruence.
        -- apply (proj1 (offset_after_cons c _ _ _ _ _)) in Hat'.
           apply Hmin in Hat'. simpl. lia.
Qed.

Lemma search_none (tz : string) :
  Re.search unicode_decimal tz = None <-> ~ contains_offset unicode_decimal tz.
Proof.
  split.
  - intros Hs (pre & p & h & m & Hat).
    revert tz Hs Hat. induction pre as [|c pre IH]; intros tz Hs Hat.
    + apply offset_after_nil in Hat. destruct tz; cbn [Re.search] in Hs;
        rewrite Hat in Hs; discriminate.
    + destruct Hat as [Hc [post E]]. cbn [String.append] in E. subst tz.
      cbn [Re.search] in Hs.
      destruct (Re.match_at _ _); [discriminate|].
      apply (IH _ Hs). split; [exact Hc|]. now exists post.
  - intros Hno. destruct (Re.search unicode_decimal tz) as [mt|] eqn:Hs;
      [|reflexivity].
    exfalso. apply Hno.
    destruct (search_found tz mt Hs) as (pre & p & h & m & [Hat _] & _).
    now exists pre, p, h, m.
Qed.

(** A text that holds the shape holds a first piece of it. *)
Lemma contains_first (tz : string) :
  contains_offset unicode_decimal tz ->
  exists pre p h m, first_offset unicode_decimal pre tz p h m.
Proof.
  intros Hc. destruct (Re.search unicode_decimal tz) as [mt|] eqn:Hs.
  - destruct (search_found tz mt Hs) as (pre & p & h & m & Hf & _).
    now exists pre, p, h, m.
  - apply search_none in Hs. contradiction.
Qed.

End PatternFacts.

(** ** Dates and times *)

Section ClockFacts.

#[local] Arguments str_N : simpl never.

Lemma pad2_two (n : Z) : 0 <= n < 100 -> pad2 n = two n.
Proof.
  intros Hn. rewrite <- (Z2N.id n) at 2 by lia. rewrite two_of_N.
  unfold pad2. destruct (N.ltb_spec (Z.to_N n) 10) as [H | H].
  - rewrite (str_N_small _ H). cbn.
    rewrite N.div_small, N.mod_small by exact H. reflexivity.
  - rewrite (str_N_step _ H).
    rewrite (str_N_small (Z.to_N n / 10)) by (apply N.Div0.div_lt_upper_bound; lia).
    reflexivity.
Qed.

Lemma two_inj (a b : Z) :
  0 <= a < 100 -> 0 <= b < 100 -> two a = two b -> a = b.
Proof.
  intros Ha Hb E. unfold two in E. injection E as E1 E0.
  assert (Z.to_N (a / 10) = Z.to_N (b / 10)) as Q1.
  { apply digit_char_inj; [| |exact E1];
      apply N2Z.inj_lt; rewrite Z2N.id;
      try (apply Z.div_pos; lia); change (Z.of_N 10) with 10;
      apply Z.div_lt_upper_bound; lia. }
  assert (Z.to_N (a mod 10) = Z.to_N (b mod 10)) as Q0.
  { apply digit_char_inj; [| |exact E0];
      apply N2Z.inj_lt; rewrite Z2N.id;
      try (apply Z.mod_pos_bound; lia); change (Z.of_N 10) with 10;
      apply Z.mod_pos_bound; lia. }
  apply Z2N.inj in Q1; [|apply Z.div_pos; lia|apply Z.div_pos; lia].
  apply Z2N.inj in Q0; [|apply Z.mod_pos_bound; lia|apply Z.mod_pos_bound; lia].
  rewrite (Z.div_mod a 10), (Z.div_mod b 10) by lia. lia.
Qed.

Lemma clock_hour (s1 s2 : Z) :
  0 <= s1 < 86400 -> 0 <= s2 < 86400 ->
  clock s1 = clock s2 -> s1 / 3600 = s2 / 3600.
Proof.
  intros H1 H2 E. unfold clock in E.
  apply two_inj.
  - split; [apply Z.div_pos; lia | apply Z.div_lt_upper_bound; lia].
  - split; [apply Z.div_pos; lia | apply Z.div_lt_upper_bound; lia].
  - unfold two in *. cbn [String.append] in E. injection E as Ea Eb _.
    now rewrite Ea, Eb.
Qed.

(** Five hours later and five hours earlier never show the same clock. *)
Lemma clock_plus_minus_five (t : datetime) :
  clock (local_second t 18000) <> clock (local_second t (-18000)).
Proof.
  intros E. unfold local_second in E.
  pose proof (Z.mod_pos_bound (second_of_day t + 18000) 86400 ltac:(lia)) as B1.
  pose proof (Z.mod_pos_bound (second_of_day t + -18000) 86400 ltac:(lia)) as B2.
  apply clock_hour in E; [|exact B1|exact B2].
  revert E B1 B2. generalize (second_of_day t). intros z.
  Z.to_euclidean_division_equations. lia.
Qed.

(** Adding an offset inside the range of dates gives the clock of the local
    second. *)
Lemma add_of_seconds (t : datetime) (off : Z) :
  Datetime.valid t = true -> representable t off = true ->
  exists t', Datetime.add t (of_seconds off) = Some t'
             /\ strftime_HMS t' = clock (local_second t off).
Proof.
  unfold Datetime.valid, representable. intros Hv Hr.
  repeat (apply andb_prop in Hv; destruct Hv as [Hv ?]).
  apply andb_prop in Hr. destruct Hr as [Hr1 Hr2].
  repeat match goal with
         | H : (_ <=? _)%Z = true |- _ => apply Z.leb_le in H
         | H : (_ <? _)%Z = true |- _ => apply Z.ltb_lt in H
         end.
  unfold Datetime.add, of_seconds. cbn [days seconds microseconds].
  rewrite Z.add_0_r. rewrite (Z.div_small (microsecond t)) by lia.
  rewrite Z.add_0_r.
  set (sod := second_of_day t) in *.
  assert (Es : (sod + off mod 86400) mod 86400 = (sod + off) mod 86400).
  { apply Z.add_mod_idemp_r. lia. }
  assert (Ed : ordinal t + off / 86400 + (sod + off mod 86400) / 86400
               = (ordinal t * 86400 + sod + off) / 86400).
  { Z.to_euclidean_division_equations. lia. }
  rewrite Es, Ed.
  assert (Hlo : 0 < (ordinal t * 86400 + sod + off) / 86400).
  { apply Z.div_str_pos. lia. }
  assert (Hhi : (ordinal t * 86400 + sod + off) / 86400 <= MAXORDINAL).
  { apply Z.lt_succ_r. apply Z.div_lt_upper_bound; [lia|].
    unfold MAXORDINAL in *. lia. }
  apply Z.ltb_lt in Hlo. apply Z.leb_le in Hhi. rewrite Hlo, Hhi.
  cbn [andb]. eexists. split; [reflexivity|].
  unfold strftime_HMS, clock, local_second. cbn [hour minute second]. fold sod.
  pose proof (Z.mod_pos_bound (sod + off) 86400 ltac:(lia)) as B.
  set (s := (sod + off) mod 86400) in *.
  rewrite !pad2_two.
  - assert (Em : s mod 3600 / 60 = (s / 60) mod 60)
      by (Z.to_euclidean_division_equations; lia).
    assert (Ec : (s mod 3600) mod 60 = s mod 60)
      by (Z.to_euclidean_division_equations; lia).
    now rewrite Em, Ec.
  - Z.to_euclidean_division_equations; lia.
  - Z.to_euclidean_division_equations; lia.
  - Z.to_euclidean_division_equations; lia.
Qed.

Lemma add_out_of_range (t : datetime) (off : Z) :
  Datetime.valid t = true -> representable t off = false ->
  Datetime.add t (of_seconds off) = None.
Proof.
  unfold Datetime.valid, representable. intros Hv Hr.
  repeat (apply andb_prop in Hv; destruct Hv as [Hv ?]).
  repeat match goal with
         | H : (_ <=? _)%Z = true |- _ => apply Z.leb_le in H
         | H : (_ <? _)%Z = true |- _ => apply Z.ltb_lt in H
         end.
  unfold Datetime.add, of_seconds. cbn [days seconds microseconds].
  rewrite Z.add_0_r. rewrite (Z.div_small (microsecond t)) by lia.
  rewrite Z.add_0_r.
  set (sod := second_of_day t) in *.
  assert (Ed : ordinal t + off / 86400 + (sod + off mod 86400) / 86400
               = (ordinal t * 86400 + sod + off) / 86400).
  { Z.to_euclidean_division_equations. lia. }
  rewrite Ed.
  destruct (Z.ltb_spec 0 ((ordinal t * 86400 + sod + off) / 86400)) as [Hlo | Hlo];
    [|reflexivity].
  destruct (Z.leb_spec ((ordinal t * 86400 + sod + off) / 86400) MAXORDINAL)
    as [Hhi | Hhi]; [|reflexivity].
  exfalso. apply andb_false_iff in Hr.
  unfold MAXORDINAL in *.
  destruct Hr as [Hr | Hr]; [apply Z.leb_gt in Hr | apply Z.ltb_ge in Hr];
    revert Hlo Hhi Hr; Z.to_euclidean_division_equations; lia.
Qed.

End ClockFacts.

(** ** Parsing the timezone and formatting the local time *)

Section TimezoneFacts.

Context {number : Type}.
Variable unicode_decimal : string -> option Z.

Lemma digit_value_range (c : ascii) :
  is_digit c = true -> 0 <= digit_value c <= 9.
Proof. apply is_digit_range. Qed.

Lemma two_digits_range (a b : ascii) :
  is_digit a = true -> is_digit b = true -> 0 <= two_digits a b <= 99.
Proof.
  intros Ha Hb. unfold two_digits.
  pose proof (digit_value_range a Ha). pose proof (digit_value_range b Hb). lia.
Qed.

(** [lstrip('0')] stops at a digit that is not the ASCII zero. *)
Lemma lstrip_digit (ch rest : string) (v : Z) :
  digit_of unicode_decimal ch = Some v -> ch <> "0" ->
  lstrip "0" (ch ++ rest) = ch ++ rest.
Proof.
  intros D Hne.
  destruct (digit_of_zero _ ch v D) as [[E _] | (c & r & -> & Hc)];
    [contradiction|].
  cbn [String.append lstrip mem_char]. now rewrite Hc.
Qed.

Lemma int_chars_nil (fuel : nat) (acc : Z) :
  int_chars unicode_decimal fuel acc "" = Some acc.
Proof. destruct fuel; reflexivity. Qed.

(** [int] reads one digit and two digits. *)
Lemma int_one (ch : string) (v : Z) :
  digit_of unicode_decimal ch = Some v ->
  int unicode_decimal ch = Ok v.
Proof.
  intros D. pose proof (digit_of_at _ ch v "" D) as H.
  rewrite append_nil_r in H.
  destruct ch as [|c r]; [discriminate|].
  unfold int. cbn [String.length int_chars]. rewrite H, int_chars_nil.
  f_equal; lia.
Qed.

Lemma int_two (d1 d2 : string) (a b : Z) :
  digit_of unicode_decimal d1 = Some a ->
  digit_of unicode_decimal d2 = Some b ->
  int unicode_decimal (d1 ++ d2) = Ok (10 * a + b).
Proof.
  intros Da Db.
  pose proof (digit_of_at _ d1 a d2 Da) as H1.
  pose proof (digit_of_at _ d2 b "" Db) as H2.
  rewrite append_nil_r in H2.
  destruct d1 as [|c1 r1]; [discriminate|].
  destruct d2 as [|c2 r2]; [discriminate|].
  unfold int. rewrite length_append.
  cbn [String.append String.length] in *.
  rewrite Nat.add_succ_r. cbn [int_chars]. rewrite H1.
  cbn [Nat.add int_chars]. rewrite H2, int_chars_nil.
  f_equal; lia.
Qed.

(** [int(g.lstrip('0')) if g.lstrip('0') else 0] reads the two digits; the
    leading zeros do not count. *)
Lemma stripped_int (d1 d2 : string) (a b : Z) (self : Renderer number) :
  digit_of unicode_decimal d1 = Some a ->
  digit_of unicode_decimal d2 = Some b ->
  (if String.eqb (lstrip "0" (d1 ++ d2)) "" then ret 0
   else lift (int unicode_decimal (lstrip "0" (d1 ++ d2)))) self
  = (Ok (10 * a + b), self).
Proof.
  intros Da Db.
  assert (Hnonempty : forall ch v rest,
             digit_of unicode_decimal ch = Some v ->
             String.eqb (ch ++ rest) "" = false).
  { intros ch v rest D. apply digit_of_head in D. destruct D as [D _].
    destruct ch; [discriminate | reflexivity]. }
  destruct (String.eqb_spec d1 "0") as [-> | N1].
  - destruct (digit_of_zero _ _ _ Da) as [[_ ->] | (c & r & E & Hc)];
      [|injection E as <- <-; discriminate].
    cbn [String.append lstrip mem_char Ascii.eqb Bool.eqb orb].
    change (lstrip "0" d2) with (lstrip "0" d2).
    destruct (String.eqb_spec d2 "0") as [-> | N2].
    + destruct (digit_of_zero _ _ _ Db) as [[_ ->] | (c & r & E & Hc)];
        [reflexivity | injection E as <- <-; discriminate].
    + pose proof (lstrip_digit d2 "" b Db N2) as L.
      rewrite append_nil_r in L. rewrite L.
      pose proof (Hnonempty d2 b "" Db) as Q. rewrite append_nil_r in Q.
      rewrite Q. unfold lift. rewrite (int_one d2 b Db).
      do 2 f_equal; lia.
  - rewrite (lstrip_digit d1 d2 a Da N1), (Hnonempty d1 a d2 Da).
    unfold lift. now rewrite (int_two d1 d2 a b Da Db).
Qed.

Lemma parse_tz_first (pre tz : string) (p : Piece) (h m : Z)
    (self : Renderer number) :
  first_offset unicode_decimal pre tz p h m ->
  _parse_tz unicode_decimal tz self
  = (Ok (Some (of_hours_minutes h m)), self).
Proof.
  intros Hf. pose proof Hf as [[Hc _] _].
  unfold _parse_tz. rewrite (search_first _ _ _ _ _ _ Hf).
  apply piece_offset_digits in Hc.
  destruct Hc as (_ & a & b & c & d & Ha & Hb & Hc & Hd & -> & ->).
  cbn [groups_of Re.group2 Re.group3].
  unfold bind at 1. rewrite (stripped_int _ _ a b self Ha Hb).
  unfold bind at 1. rewrite (stripped_int _ _ c d self Hc Hd).
  reflexivity.
Qed.

Lemma parse_tz_none (tz : string) (self : Renderer number) :
  ~ contains_offset unicode_decimal tz ->
  _parse_tz unicode_decimal tz self = (Ok None, self).
Proof.
  intros Hno. apply search_none in Hno. unfold _parse_tz. now rewrite Hno.
Qed.

(** A text of the exact form is its own first piece. *)
Lemma first_offset_exact (sg h1 h2 m1 m2 : ascii) :
  offset_chars sg h1 h2 m1 m2 = true ->
  first_offset unicode_decimal "" (utc_text sg h1 h2 m1 m2)
               (ascii_piece sg h1 h2 m1 m2)
               (two_digits h1 h2) (two_digits m1 m2).
Proof.
  intros Hc. split.
  - split; [now apply piece_offset_ascii|]. exists "".
    cbn [String.append]. now rewrite append_nil_r.
  - intros. simpl. lia.
Qed.

Lemma format_time_parsed (self : Renderer number) (tz : string)
    (rest : list string) (offset : option timedelta) :
  timezones (location (location_info self)) = tz :: rest ->
  _parse_tz unicode_decimal tz self = (Ok offset, self) ->
  _format_time unicode_decimal self
  = (time_result (timestamp (location_info self)) offset, self).
Proof.
  intros Htz Hp. unfold _format_time, time_result.
  unfold bind at 1, get_location_info. rewrite Htz. cbn [getitem0].
  unfold bind at 1, ret at 1. unfold bind at 1. rewrite Hp.
  unfold bind, lift, ret.
  destruct (add_offset _ offset); reflexivity.
Qed.

Lemma format_time_no_timezone (self : Renderer number) :
  timezones (location (location_info self)) = [] ->
  _format_time unicode_decimal self = (Err IndexError, self).
Proof.
  intros Htz. unfold _format_time.
  unfold bind at 1, get_location_info. rewrite Htz. reflexivity.
Qed.

(** The offset parser never raises and leaves the object alone. *)
Lemma parse_tz_total (tz : string) (self : Renderer number) :
  exists offset, _parse_tz unicode_decimal tz self = (Ok offset, self)
                 /\ (offset = None <-> ~ contains_offset unicode_decimal tz).
Proof.
  destruct (Re.search unicode_decimal tz) as [mt|] eqn:Hs.
  - destruct (search_found _ tz mt Hs) as (pre & p & h & m & Hf & _).
    eexists. split; [apply (parse_tz_first pre tz p h m self Hf)|].
    split; [discriminate|]. intros Hno. apply search_none in Hno. congruence.
  - apply search_none in Hs. exists None. split; [now apply parse_tz_none|].
    now split.
Qed.

Lemma format_time_state (self : Renderer number) :
  _format_time unicode_decimal self
  = (fst (_format_time unicode_decimal self), self).
Proof.
  destruct (timezones (location (location_info self))) as [|tz rest] eqn:Htz.
  - now rewrite format_time_no_timezone.
  - destruct (parse_tz_total tz self) as (offset & Hp & _).
    now rewrite (format_time_parsed self tz rest offset Htz Hp).
Qed.

End TimezoneFacts.

(** ** The report *)

Section RenderFacts.

Context {number : Type}.
Variable unicode_decimal : string -> option Z.
Variable format_number : number -> string.
Variable tabulate : list (list (cell number)) -> list string -> string.

Lemma format_languages_ok (self : Renderer number) :
  exists langs, _format_languages self = (Ok langs, self).
Proof. eexists. reflexivity. Qed.

Lemma format_population_ok (self : Renderer number) :
  exists people, _format_population self = (Ok people, self).
Proof. eexists. reflexivity. Qed.

Lemma format_news_ok (self : Renderer number) :
  exists news_block, _format_news self = (Ok news_block, self).
Proof. eexists. reflexivity. Qed.

Lemma format_currency_rates_state (self : Renderer number) :
  _format_currency_rates self = (fst (_format_currency_rates self), self).
Proof. now rewrite format_currency_rates_result. Qed.

(** [render] hands the rows to [tabulate] when all formatters return. *)
Lemma render_in_ok (context : Context) (self : Renderer number)
    (langs people rates time tz0 news_block : string) (rest : list string) :
  _format_languages self = (Ok langs, self) ->
  _format_population self = (Ok people, self) ->
  _format_currency_rates_in context self = (Ok rates, self) ->
  _format_time unicode_decimal self = (Ok time, self) ->
  timezones (location (location_info self)) = tz0 :: rest ->
  _format_news self = (Ok news_block, self) ->
  render_in unicode_decimal format_number tabulate context self
  = (Ok (split newline
           (tabulate
              (report_rows format_number (location_info self)
                           langs people rates time tz0 news_block)
              ["Параметр"; "Значение"])),
     self).
Proof.
  intros Hl Hp Hc Ht Htz Hn.
  cbv beta iota delta [render_in bind get_location_info attr ret].
  rewrite Hl. cbv beta iota. rewrite Hp. cbv beta iota.
  rewrite Hc. cbv beta iota. rewrite Ht. cbv beta iota.
  rewrite Htz. cbv beta iota delta [getitem0 ret].
  rewrite Hn. reflexivity.
Qed.

(** A formatter that raises makes [render] raise: the currency formatter
    first, the time formatter after it. *)
Lemma render_in_currency_error (context : Context) (self : Renderer number)
    (e : exn) :
  _format_currency_rates_in context self = (Err e, self) ->
  render_in unicode_decimal format_number tabulate context self
  = (Err e, self).
Proof.
  intros Hc.
  destruct (format_languages_ok self) as [langs Hl].
  destruct (format_population_ok self) as [people Hp].
  cbv beta iota delta [render_in bind get_location_info attr ret].
  rewrite Hl. cbv beta iota. rewrite Hp. cbv beta iota.
  now rewrite Hc.
Qed.

Lemma render_in_time_error (context : Context) (self : Renderer number)
    (rates : string) (e : exn) :
  _format_currency_rates_in context self = (Ok rates, self) ->
  _format_time unicode_decimal self = (Err e, self) ->
  render_in unicode_decimal format_number tabulate context self
  = (Err e, self).
Proof.
  intros Hc Ht.
  destruct (format_languages_ok self) as [langs Hl].
  destruct (format_population_ok self) as [people Hp].
  cbv beta iota delta [render_in bind get_location_info attr ret].
  rewrite Hl. cbv beta iota. rewrite Hp. cbv beta iota.
  rewrite Hc. cbv beta iota. now rewrite Ht.
Qed.

Lemma render_ok (self : Renderer number)
    (langs people rates time tz0 news_block : string) (rest : list string) :
  _format_languages self = (Ok langs, self) ->
  _format_population self = (Ok people, self) ->
  _format_currency_rates self = (Ok rates, self) ->
  _format_time unicode_decimal self = (Ok time, self) ->
  timezones (location (location_info self)) = tz0 :: rest ->
  _format_news self = (Ok news_block, self) ->
  render unicode_decimal format_number tabulate self
  = (Ok (split newline
           (tabulate
              (report_rows format_number (location_info self)
                           langs people rates time tz0 news_block)
              ["Параметр"; "Значение"])),
     self).
Proof. apply render_in_ok. Qed.

Lemma render_currency_error (self : Renderer number) (e : exn) :
  _format_currency_rates self = (Err e, self) ->
  render unicode_decimal format_number tabulate self = (Err e, self).
Proof. apply render_in_currency_error. Qed.

Lemma render_time_error (self : Renderer number) (rates : string) (e : exn) :
  _format_currency_rates self = (Ok rates, self) ->
  _format_time unicode_decimal self = (Err e, self) ->
  render unicode_decimal format_number tabulate self = (Err e, self).
Proof. apply render_in_time_error. Qed.

(** Under any decimal context [render] returns the object it was called
    on. *)
Lemma render_in_state (context : Context) (self : Renderer number) :
  render_in unicode_decimal format_number tabulate context self
  = (fst (render_in unicode_decimal format_number tabulate context self),
     self).
Proof.
  pose proof (format_currency_rates_in_state context self) as Hc.
  pose proof (format_time_state unicode_decimal self) as Ht.
  destruct (fst (_format_currency_rates_in context self)) as [rates | e].
  - destruct (fst (_format_time unicode_decimal self)) as [time | e].
    + destruct (timezones (location (location_info self))) as [|tz0 rest] eqn:Htz.
      * rewrite format_time_no_timezone in Ht by exact Htz. discriminate.
      * destruct (format_languages_ok self) as [langs Hl].
        destruct (format_population_ok self) as [people Hp].
        destruct (format_news_ok self) as [news_block Hn].
        now rewrite (render_in_ok context self langs people rates time tz0
                       news_block rest Hl Hp Hc Ht Htz Hn).
    + now rewrite (render_in_time_error context self rates e Hc Ht).
  - now rewrite (render_in_currency_error context self e Hc).
Qed.

(** [render] returns the object it was called on. *)
Lemma render_state (self : Renderer number) :
  render unicode_decimal format_number tabulate self
  = (fst (render unicode_decimal format_number tabulate self), self).
Proof. apply render_in_state. Qed.



(** Only the time formatter makes [render] raise a [TypeError]. *)
Lemma render_type_error (self : Renderer number) :
  fst (render unicode_decimal format_number tabulate self) = Err TypeError ->
  fst (_format_time unicode_decimal self) = Err TypeError.
Proof.
  pose proof (format_currency_rates_state self) as Hc.
  pose proof (format_time_state unicode_decimal self) as Ht.
  pose proof (format_currency_rates_result self) as Hr.
  destruct (fst (_format_currency_rates self)) as [rates | e].
  - destruct (fst (_format_time unicode_decimal self)) as [time | e].
    + destruct (timezones (location (location_info self))) as [|tz0 rest] eqn:Htz.
      * rewrite format_time_no_timezone in Ht by exact Htz. discriminate.
      * destruct (format_languages_ok self) as [langs Hl].
        destruct (format_population_ok self) as [people Hp].
        destruct (format_news_ok self) as [news_block Hn].
        rewrite (render_ok self langs people rates time tz0 news_block
                   rest Hl Hp Hc Ht Htz Hn). discriminate.
    + rewrite (render_time_error self rates e Hc Ht). cbn [fst]. intros E.
      injection E as E. now subst e.
  - rewrite (render_currency_error self e Hc). cbn [fst]. intros E.
    injection E as E. subst e. rewrite Hc in Hr.
    destruct (forallb _ _) in Hr; discriminate.
Qed.

End RenderFacts.

(** ** Local time *)

Section LocalTimeFacts.

Context {number : Type}.
Variable unicode_decimal : string -> option Z.

Lemma format_time_first (self : Renderer number) (pre tz : string)
    (rest : list string) (p : Piece) (h m : Z) :
  timezones (location (location_info self)) = tz :: rest ->
  first_offset unicode_decimal pre tz p h m ->
  _format_time unicode_decimal self
  = (match Datetime.add (timestamp (location_info self))
             (of_hours_minutes h m) with
     | Some t => Ok (strftime_HMS t)
     | None => Err OverflowError
     end, self).
Proof.
  intros Htz Hf.
  rewrite (format_time_parsed _ self tz rest _ Htz
             (parse_tz_first _ pre tz p h m self Hf)).
  unfold time_result, add_offset.
  destruct (Datetime.add _ _); reflexivity.
Qed.

Lemma format_time_clock (self : Renderer number) (pre tz : string)
    (rest : list string) (p : Piece) (h m : Z) :
  timezones (location (location_info self)) = tz :: rest ->
  first_offset unicode_decimal pre tz p h m ->
  Datetime.valid (timestamp (location_info self)) = true ->
  representable (timestamp (location_info self)) (h * 3600 + m * 60) = true ->
  _format_time unicode_decimal self
  = (Ok (clock (local_second (timestamp (location_info self))
                             (h * 3600 + m * 60))),
     self).
Proof.
  intros Htz Hf Hv Hr.
  rewrite (format_time_first self pre tz rest p h m Htz Hf).
  destruct (add_of_seconds _ _ Hv Hr) as (t' & Ha & Hs).
  unfold of_hours_minutes. now rewrite Ha, Hs.
Qed.

Lemma format_time_malformed (self : Renderer number) (tz : string)
    (rest : list string) :
  timezones (location (location_info self)) = tz :: rest ->
  ~ contains_offset unicode_decimal tz ->
  _format_time unicode_decimal self = (Err TypeError, self).
Proof.
  intros Htz Hno.
  now rewrite (format_time_parsed _ self tz rest None Htz
                 (parse_tz_none _ tz self Hno)).
Qed.

Lemma format_time_type_error (self : Renderer number) (tz : string)
    (rest : list string) :
  timezones (location (location_info self)) = tz :: rest ->
  fst (_format_time unicode_decimal self) = Err TypeError ->
  ~ contains_offset unicode_decimal tz.
Proof.
  intros Htz E Hc.
  destruct (contains_first _ tz Hc) as (pre & p & h & m & Hf).
  rewrite (format_time_first self pre tz rest p h m Htz Hf) in E.
  cbn [fst] in E. destruct (Datetime.add _ _); discriminate.
Qed.

Lemma exact_offset_some (tz : string) (off : Z) :
  exact_offset tz = Some off ->
  exists sg h1 h2 m1 m2,
    tz = utc_text sg h1 h2 m1 m2
    /\ offset_chars sg h1 h2 m1 m2 = true
    /\ off = two_digits h1 h2 * 3600 + two_digits m1 m2 * 60.
Proof.
  unfold exact_offset.
  destruct tz as [|u [|t [|c [|sg [|h1 [|h2 [|co [|m1 [|m2 [|x post]]]]]]]]]];
    try discriminate.
  destruct (_ && _) eqn:E; [|discriminate].
  intros H. injection H as H.
  apply andb_prop in E. destruct E as [E1 E2]. apply String.eqb_eq in E1.
  exists sg, h1, h2, m1, m2. repeat split; [exact E1 | exact E2 | now symmetry].
Qed.

End LocalTimeFacts.

(** C5. With a first timezone [UTC+HH:MM] the local time is the timestamp
    plus HH hours and MM minutes, the digits read as numbers with leading
    zeros dropped, shown as zero-padded [HH:MM:SS] on the 24-hour clock;
    [UTC+03:00] at 2023-01-01T10:00:00 gives [13:00:00]. *)
Theorem format_time_adds_offset {number : Type}
    (unicode_decimal : string -> option Z) (self : Renderer number)
    (h1 h2 m1 m2 : ascii) (rest : list string)
    (Hd : offset_chars "+" h1 h2 m1 m2 = true) :
  _format_time unicode_decimal
    (set_timezones (utc_text "+" h1 h2 m1 m2 :: rest) self)
  = (match Datetime.add (timestamp (location_info self))
             (of_hours_minutes (two_digits h1 h2) (two_digits m1 m2)) with
     | Some t => Ok (strftime_HMS t)
     | None => Err OverflowError
     end,
     set_timezones (utc_text "+" h1 h2 m1 m2 :: rest) self)
  /\ (Datetime.valid (timestamp (location_info self)) = true ->
      representable (timestamp (location_info self))
                    (two_digits h1 h2 * 3600 + two_digits m1 m2 * 60) = true ->
      _format_time unicode_decimal
        (set_timezones (utc_text "+" h1 h2 m1 m2 :: rest) self)
      = (Ok (clock (local_second
                      (timestamp (location_info self))
                      (two_digits h1 h2 * 3600 + two_digits m1 m2 * 60))),
         set_timezones (utc_text "+" h1 h2 m1 m2 :: rest) self))
  /\ two_digits "0" "3" = 3
  /\ _format_time unicode_decimal
       (set_timestamp Sample.new_year (set_timezones ["UTC+03:00"] self))
     = (Ok "13:00:00",
        set_timestamp Sample.new_year (set_timezones ["UTC+03:00"] self)).
Proof.
  pose proof (first_offset_exact unicode_decimal "+" h1 h2 m1 m2 Hd) as Hf.
  split; [|split; [|split; reflexivity]].
  - exact (format_time_first unicode_decimal
             (set_timezones (utc_text "+" h1 h2 m1 m2 :: rest) self)
             "" _ rest _ _ _ eq_refl Hf).
  - intros Hv Hr.
    exact (format_time_clock unicode_decimal
             (set_timezones (utc_text "+" h1 h2 m1 m2 :: rest) self)
             "" _ rest _ _ _ eq_refl Hf Hv Hr).
Qed.

(** [UTC+03:00] on the example record. *)
Lemma format_time_adds_offset_witness :
  offset_chars "+" "0" "3" "0" "0" = true
  /\ _format_time Sample.arabic_indic
       (set_timezones ["UTC+03:00"] (Sample.renderer "UTC+00:00"))
     = (Ok "13:00:00",
        set_timezones ["UTC+03:00"] (Sample.renderer "UTC+00:00")).
Proof.
  split; [reflexivity|].
  exact (proj1 (proj2 (format_time_adds_offset Sample.arabic_indic
                         (Sample.renderer "UTC+00:00") "0" "3" "0" "0" []
                         eq_refl))
               eq_refl eq_refl).
Defined.

(** C2. With a first timezone [UTC-HH:MM] the sign that was matched is not
    used: the local time is the timestamp plus HH hours and MM minutes, the
    same as for [UTC+HH:MM]; for [UTC-05:00] it is the timestamp plus five
    hours, which never shows the clock of five hours earlier. *)
Theorem format_time_ignores_minus {number : Type}
    (unicode_decimal : string -> option Z) (self : Renderer number)
    (h1 h2 m1 m2 : ascii) (rest : list string)
    (Hd : offset_chars "-" h1 h2 m1 m2 = true) :
  _format_time unicode_decimal
    (set_timezones (utc_text "-" h1 h2 m1 m2 :: rest) self)
  = (match Datetime.add (timestamp (location_info self))
             (of_hours_minutes (two_digits h1 h2) (two_digits m1 m2)) with
     | Some t => Ok (strftime_HMS t)
     | None => Err OverflowError
     end,
     set_timezones (utc_text "-" h1 h2 m1 m2 :: rest) self)
  /\ 0 <= two_digits h1 h2 /\ 0 <= two_digits m1 m2
  /\ fst (_format_time unicode_decimal
            (set_timezones (utc_text "-" h1 h2 m1 m2 :: rest) self))
     = fst (_format_time unicode_decimal
              (set_timezones (utc_text "+" h1 h2 m1 m2 :: rest) self))
  /\ (Datetime.valid (timestamp (location_info self)) = true ->
      representable (timestamp (location_info self)) 18000 = true ->
      _format_time unicode_decimal (set_timezones ["UTC-05:00"] self)
      = (Ok (clock (local_second (timestamp (location_info self)) 18000)),
         set_timezones ["UTC-05:00"] self)
      /\ clock (local_second (timestamp (location_info self)) 18000)
         <> clock (local_second (timestamp (location_info self)) (-18000)))
  /\ _format_time unicode_decimal
       (set_timestamp Sample.new_year (set_timezones ["UTC-05:00"] self))
     = (Ok "15:00:00",
        set_timestamp Sample.new_year (set_timezones ["UTC-05:00"] self)).
Proof.
  pose proof (first_offset_exact unicode_decimal "-" h1 h2 m1 m2 Hd) as Hf.
  assert (Hd' : offset_chars "+" h1 h2 m1 m2 = true) by exact Hd.
  pose proof (first_offset_exact unicode_decimal "+" h1 h2 m1 m2 Hd') as Hf'.
  unfold offset_chars in Hd.
  repeat (apply andb_prop in Hd; destruct Hd as [Hd ?]).
  pose proof (two_digits_range h1 h2 ltac:(assumption) ltac:(assumption)).
  pose proof (two_digits_range m1 m2 ltac:(assumption) ltac:(assumption)).
  assert (E : _format_time unicode_decimal
                (set_timezones (utc_text "-" h1 h2 m1 m2 :: rest) self)
              = (match Datetime.add (timestamp (location_info self))
                         (of_hours_minutes (two_digits h1 h2) (two_digits m1 m2)) with
                 | Some t => Ok (strftime_HMS t)
                 | None => Err OverflowError
                 end,
                 set_timezones (utc_text "-" h1 h2 m1 m2 :: rest) self)).
  { exact (format_time_first unicode_decimal
             (set_timezones (utc_text "-" h1 h2 m1 m2 :: rest) self)
             "" _ rest _ _ _ eq_refl Hf). }
  split; [exact E|]. split; [lia|]. split; [lia|].
  split; [|split; [|reflexivity]].
  - rewrite E.
    rewrite (format_time_first unicode_decimal
               (set_timezones (utc_text "+" h1 h2 m1 m2 :: rest) self)
               "" _ rest _ _ _ eq_refl Hf').
    reflexivity.
  - intros Hv Hr. split; [|apply clock_plus_minus_five].
    exact (format_time_clock unicode_decimal
             (set_timezones ["UTC-05:00"] self)
             "" _ [] _ _ _ eq_refl
             (first_offset_exact unicode_decimal "-" "0" "5" "0" "0" eq_refl)
             Hv Hr).
Qed.

(** [UTC-05:00] on the example record: five hours are added. *)
Lemma format_time_ignores_minus_witness :
  offset_chars "-" "0" "5" "0" "0" = true
  /\ _format_time Sample.arabic_indic
       (set_timezones ["UTC-05:00"] (Sample.renderer "UTC+00:00"))
     = (Ok "15:00:00",
        set_timezones ["UTC-05:00"] (Sample.renderer "UTC+00:00")).
Proof.
  split; [reflexivity|].
  exact (proj1 (format_time_ignores_minus Sample.arabic_indic
                  (Sample.renderer "UTC+00:00") "0" "5" "0" "0" [] eq_refl)).
Defined.

(** ** Malformed timezones *)

(** C3. When the first timezone holds no piece of the shape [UTC±HH:MM],
    with [HH] and [MM] in decimal digits of any script, which is when the
    pattern of the parser does not match, the offset parser returns no
    offset, adding it to the timestamp raises, and [render] fails; it gives
    no report.  [GMT+3] is such a text. *)
Theorem render_fails_on_malformed_timezone {number : Type}
    (unicode_decimal : string -> option Z)
    (format_number : number -> string)
    (tabulate : list (list (cell number)) -> list string -> string)
    (self : Renderer number) (tz : string) (rest : list string)
    (Hno : ~ contains_offset unicode_decimal tz) :
  _parse_tz unicode_decimal tz self = (Ok None, self)
  /\ _format_time unicode_decimal (set_timezones (tz :: rest) self)
     = (Err TypeError, set_timezones (tz :: rest) self)
  /\ (exists e,
         render unicode_decimal format_number tabulate
                (set_timezones (tz :: rest) self)
         = (Err e, set_timezones (tz :: rest) self))
  /\ (is_ok (fst (_format_currency_rates self)) = true ->
      render unicode_decimal format_number tabulate
             (set_timezones (tz :: rest) self)
      = (Err TypeError, set_timezones (tz :: rest) self))
  /\ ~ contains_offset unicode_decimal "GMT+3"
  /\ _format_time unicode_decimal (set_timezones ["GMT+3"] self)
     = (Err TypeError, set_timezones ["GMT+3"] self).
Proof.
  assert (Ht : _format_time unicode_decimal (set_timezones (tz :: rest) self)
               = (Err TypeError, set_timezones (tz :: rest) self)).
  { exact (format_time_malformed unicode_decimal
             (set_timezones (tz :: rest) self) tz rest eq_refl Hno). }
  pose proof (format_currency_rates_state (set_timezones (tz :: rest) self))
    as Hc.
  split; [now apply parse_tz_none|]. split; [exact Ht|].
  split; [|split; [|split; [|reflexivity]]].
  - destruct (fst (_format_currency_rates (set_timezones (tz :: rest) self)))
      as [rates | e].
    + exists TypeError. exact (render_time_error _ _ _ _ rates _ Hc Ht).
    + exists e. exact (render_currency_error _ _ _ _ e Hc).
  - intros Hok. rewrite format_currency_rates_result in Hok.
    pose proof (format_currency_rates_result (set_timezones (tz :: rest) self))
      as Hcur.
    cbn [set_timezones set_location location_info currency_rates fst]
      in Hok, Hcur.
    destruct (forallb _ (currency_rates (location_info self)));
      [|discriminate].
    exact (render_time_error _ _ _ _ _ _ Hcur Ht).
  - apply search_none. reflexivity.
Qed.

(** [GMT+3] on the example record, the table knowing the Arabic-Indic
    digits. *)
Lemma render_fails_on_malformed_timezone_witness :
  ~ contains_offset Sample.arabic_indic "GMT+3"
  /\ render Sample.arabic_indic str_Z Sample.plain
            (set_timezones ["GMT+3"] (Sample.renderer "GMT+3"))
     = (Err TypeError, set_timezones ["GMT+3"] (Sample.renderer "GMT+3")).
Proof.
  assert (Hno : ~ contains_offset Sample.arabic_indic "GMT+3").
  { apply search_none. reflexivity. }
  split; [exact Hno|].
  exact (proj1 (proj2 (proj2 (proj2
           (render_fails_on_malformed_timezone Sample.arabic_indic
              str_Z Sample.plain (Sample.renderer "GMT+3") "GMT+3" [] Hno))))
           eq_refl).
Defined.

(** C10. The timezone is searched, not matched as a whole: when a piece of
    the shape [UTC±HH:MM] stands anywhere in the text, the parser returns the
    offset of the first such piece and neither the time formatter nor
    [render] raises the error of a missing offset; with the rest of the
    record in range [render] returns.  That error is raised exactly when no
    such piece stands in the text.  [xUTC+03:00y] parses to three hours, and
    a first piece in Arabic-Indic digits goes before a later one in ASCII
    digits. *)
Theorem parse_tz_searches {number : Type}
    (unicode_decimal : string -> option Z)
    (format_number : number -> string)
    (tabulate : list (list (cell number)) -> list string -> string)
    (self : Renderer number) (tz : string) (rest : list string) :
  (contains_offset unicode_decimal tz ->
   exists pre p h m,
     first_offset unicode_decimal pre tz p h m
     /\ _parse_tz unicode_decimal tz self
        = (Ok (Some (of_hours_minutes h m)), self)
     /\ fst (_format_time unicode_decimal (set_timezones (tz :: rest) self))
        <> Err TypeError
     /\ fst (render unicode_decimal format_number tabulate
                    (set_timezones (tz :: rest) self))
        <> Err TypeError
     /\ (Datetime.valid (timestamp (location_info self)) = true ->
         representable (timestamp (location_info self))
                       (h * 3600 + m * 60) = true ->
         forallb (fun item => fits_context (snd item))
                 (currency_rates (location_info self)) = true ->
         is_ok (fst (render unicode_decimal format_number tabulate
                            (set_timezones (tz :: rest) self))) = true))
  /\ (fst (_format_time unicode_decimal (set_timezones (tz :: rest) self))
      = Err TypeError
      <-> ~ contains_offset unicode_decimal tz)
  /\ (fst (render unicode_decimal format_number tabulate
                  (set_timezones (tz :: rest) self))
      = Err TypeError -> ~ contains_offset unicode_decimal tz)
  /\ contains_offset unicode_decimal "xUTC+03:00y"
  /\ _parse_tz unicode_decimal "xUTC+03:00y" self
     = (Ok (Some (of_hours_minutes 3 0)), self)
  /\ _parse_tz Sample.arabic_indic "UTC+٠٥:٠٠ UTC+03:00" self
     = (Ok (Some (of_hours_minutes 5 0)), self).
Proof.
  assert (Hiff : fst (_format_time unicode_decimal
                        (set_timezones (tz :: rest) self))
                 = Err TypeError <-> ~ contains_offset unicode_decimal tz).
  { split.
    - exact (format_time_type_error unicode_decimal
               (set_timezones (tz :: rest) self) tz rest eq_refl).
    - intros Hno.
      now rewrite (format_time_malformed unicode_decimal
                     (set_timezones (tz :: rest) self) tz rest eq_refl Hno). }
  assert (Hrender : fst (render unicode_decimal format_number tabulate
                           (set_timezones (tz :: rest) self)) = Err TypeError
                    -> ~ contains_offset unicode_decimal tz).
  { intros E. apply Hiff.
    now apply (render_type_error unicode_decimal format_number tabulate). }
  split; [|split; [exact Hiff|split; [exact Hrender|
          split; [|split; reflexivity]]]].
  - intros Hc.
    destruct (contains_first _ tz Hc) as (pre & p & h & m & Hf).
    exists pre, p, h, m.
    split; [exact Hf|].
    split; [exact (parse_tz_first _ pre tz p h m self Hf)|].
    split; [intros E; now apply Hiff in E|].
    split; [intros E; now apply Hrender in E|].
    intros Hv Hr Hfit.
    pose proof (format_time_clock unicode_decimal
                  (set_timezones (tz :: rest) self)
                  pre tz rest p h m eq_refl Hf Hv Hr) as Ht.
    pose proof (format_currency_rates_result (set_timezones (tz :: rest) self))
      as Hcur.
    cbn [set_timezones set_location location_info currency_rates] in Hcur.
    rewrite Hfit in Hcur.
    destruct (format_languages_ok (set_timezones (tz :: rest) self))
      as [langs Hl].
    destruct (format_population_ok (set_timezones (tz :: rest) self))
      as [people Hp].
    destruct (format_news_ok (set_timezones (tz :: rest) self))
      as [news_block Hn].
    now rewrite (render_ok unicode_decimal format_number tabulate _ langs
                   people _ _ tz news_block rest Hl Hp Hcur Ht eq_refl Hn).
  - exists "x", (ascii_piece "+" "0" "3" "0" "0"), 3, 0.
    split; [reflexivity|]. now exists "y".
Qed.

(** ** The whole report *)

Section ReportFacts.

Context {number : Type}.
Variable unicode_decimal : string -> option Z.
Variable format_number : number -> string.
Variable tabulate : list (list (cell number)) -> list string -> string.

Lemma format_languages_value (self : Renderer number) :
  _format_languages self
  = (Ok (join ", " (map language_entry
                        (languages (location (location_info self))))), self).
Proof. reflexivity. Qed.

Lemma format_population_value (self : Renderer number) :
  _format_population self
  = (Ok (replace "," "."
           (format_comma (population (location (location_info self))))), self).
Proof. reflexivity. Qed.

Lemma format_news_value (self : Renderer number) :
  _format_news self
  = (Ok (news_block (news_list (news (location_info self)))), self).
Proof.
  unfold _format_news, bind, get_location_info, ret.
  now rewrite news_loop.
Qed.

(** The report of a well-formed record, every cell in the terms of the
    specification. *)
Lemma render_well_formed (self : Renderer number) :
  well_formed (location_info self) = true ->
  exists (g0 : string) (gs : list string) (tz0 : string) (off : Z),
    glue (g0 :: gs) = str_Z (population (location (location_info self)))
    /\ forallb is_digit (chars (glue (g0 :: gs))) = true
    /\ (1 <= String.length g0 <= 3)%nat
    /\ Forall (fun g => String.length g = 3%nat) gs
    /\ hd_error (timezones (location (location_info self))) = Some tz0
    /\ exact_offset tz0 = Some off
    /\ render unicode_decimal format_number tabulate self
       = (Ok (split newline
                (tabulate
                   (report_rows format_number (location_info self)
                      (separated ", "
                         (map language_entry
                              (languages (location (location_info self)))))
                      (separated "." (g0 :: gs))
                      (separated ", "
                         (map currency_entry
                              (currency_rates (location_info self))))
                      (clock (local_second (timestamp (location_info self))
                                           off))
                      tz0
                      (news_block (news_list (news (location_info self)))))
                   ["Параметр"; "Значение"])),
          self).
Proof.
  unfold well_formed. intros Hwf.
  apply andb_prop in Hwf. destruct Hwf as [Hwf Hfit].
  apply andb_prop in Hwf. destruct Hwf as [Hwf Htz].
  apply andb_prop in Hwf. destruct Hwf as [Hpop Hv].
  apply Z.leb_le in Hpop.
  destruct (timezones (location (location_info self))) as [|tz rest] eqn:Etz;
    [discriminate|].
  destruct (exact_offset tz) as [off|] eqn:Eoff; [|discriminate].
  destruct (exact_offset_some tz off Eoff)
    as (sg & h1 & h2 & m1 & m2 & Etext & Hc & Ev).
  destruct (population_groups _ Hpop) as (g0 & gs & Hsep & Hglue & Hd & Hg0 & Hgs).
  exists g0, gs, tz, off.
  split; [exact Hglue|]. split; [exact Hd|]. split; [exact Hg0|].
  split; [exact Hgs|]. split; [reflexivity|]. split; [exact Eoff|].
  assert (Ht : _format_time unicode_decimal self
               = (Ok (clock (local_second (timestamp (location_info self))
                                          off)), self)).
  { subst tz off.
    exact (format_time_clock unicode_decimal self "" _ rest _ _ _ Etz
             (first_offset_exact unicode_decimal sg h1 h2 m1 m2 Hc) Hv Htz). }
  pose proof (format_currency_rates_result self) as Hcur.
  rewrite Hfit in Hcur.
  pose proof (format_languages_value self) as Hl.
  rewrite join_separated in Hl.
  pose proof (format_population_value self) as Hp.
  rewrite Hsep in Hp.
  exact (render_ok unicode_decimal format_number tabulate self _ _ _ _ _ _
           rest Hl Hp Hcur Ht Etz (format_news_value self)).
Qed.

End ReportFacts.

(** C1. For a well-formed record [render] returns the lines of the table
    that [tabulate] lays out from exactly fourteen rows in the fixed order:
    name, capital, subregion, the languages as [Name (NativeName)] with
    [", "] between, the population in groups of three digits with ['.']
    between and [" чел."] behind, the currency rates as [CODE = X.XX руб.]
    rounded half up with [", "] between, the temperature with [" °C"], the
    weather description, wind speed, visibility, the area with [" км^2"], the
    pair [(lat, lon)], the clock of the timestamp moved by the offset of the
    first timezone with that timezone in parentheses, and the news block of
    numbered lines, under the header [Параметр], [Значение]. *)
Theorem render_rows {number : Type}
    (unicode_decimal : string -> option Z)
    (format_number : number -> string)
    (tabulate : list (list (cell number)) -> list string -> string)
    (self : Renderer number)
    (Hwf : well_formed (location_info self) = true) :
  exists (g0 : string) (gs : list string) (tz0 : string) (off : Z) rows,
    glue (g0 :: gs) = str_Z (population (location (location_info self)))
    /\ forallb is_digit (chars (glue (g0 :: gs))) = true
    /\ (1 <= String.length g0 <= 3)%nat
    /\ Forall (fun g => String.length g = 3%nat) gs
    /\ hd_error (timezones (location (location_info self))) = Some tz0
    /\ exact_offset tz0 = Some off
    /\ rows
       = [ [Text "Страна:"; Text (name (location (location_info self)))];
           [Text "Столица:"; Text (capital (location (location_info self)))];
           [Text "Регион:"; Text (subregion (location (location_info self)))];
           [Text "Языки:";
            Text (separated ", "
                    (map language_entry
                         (languages (location (location_info self)))))];
           [Text "Население страны:";
            Text (separated "." (g0 :: gs) ++ " чел.")];
           [Text "Курсы валют:";
            Text (separated ", "
                    (map currency_entry
                         (currency_rates (location_info self))))];
           [Text "Погода:";
            Text (format_number (temp (weather (location_info self))) ++ " °C")];
           [Text "Описание погоды:";
            Text (description (weather (location_info self)))];
           [Text "Скорость ветра:";
            Number (wind_speed (weather (location_info self)))];
           [Text "Видимость:";
            Number (visibility (weather (location_info self)))];
           [Text "Площадь:";
            Text (format_number (area (location (location_info self)))
                    ++ " км^2")];
           [Text "Широта и долгота:";
            Text ("(" ++ format_number (latitude (location (location_info self)))
                      ++ ", "
                      ++ format_number (longitude (location (location_info self)))
                      ++ ")")];
           [Text "Местное время:";
            Text (clock (local_second (timestamp (location_info self)) off)
                    ++ " (" ++ tz0 ++ ")")];
           [Text "Новости:";
            Text (news_block (news_list (news (location_info self))))] ]
    /\ List.length rows = 14%nat
    /\ render unicode_decimal format_number tabulate self
       = (Ok (split newline (tabulate rows ["Параметр"; "Значение"])), self).
Proof.
  destruct (render_well_formed unicode_decimal format_number tabulate self Hwf)
    as (g0 & gs & tz0 & off & Hglue & Hd & Hg0 & Hgs & Htz & Hoff & Hr).
  exists g0, gs, tz0, off. eexists.
  split; [exact Hglue|]. split; [exact Hd|]. split; [exact Hg0|].
  split; [exact Hgs|]. split; [exact Htz|]. split; [exact Hoff|].
  split; [reflexivity|]. split; [reflexivity|]. exact Hr.
Qed.

(** The example record is well formed; its time cell is
    [13:00:00 (UTC+03:00)]. *)
Lemma render_rows_witness :
  well_formed (location_info (Sample.renderer "UTC+03:00")) = true
  /\ exists rows,
       nth_error rows 12
       = Some [Text "Местное время:"; Text "13:00:00 (UTC+03:00)"]
       /\ render Sample.arabic_indic str_Z Sample.plain
                 (Sample.renderer "UTC+03:00")
          = (Ok (split newline (Sample.plain rows ["Параметр"; "Значение"])),
             Sample.renderer "UTC+03:00").
Proof.
  split; [reflexivity|].
  destruct (render_rows Sample.arabic_indic str_Z Sample.plain
              (Sample.renderer "UTC+03:00") eq_refl)
    as (g0 & gs & tz0 & off & rows & Hglue & Hd & Hg0 & Hgs & Htz & Hoff
        & Hrows & Hlen & Hr).
  exists rows. split; [|exact Hr].
  rewrite Hrows. cbn [nth_error].
  cbn in Htz. injection Htz as <-.
  cbv in Hoff. injection Hoff as <-. reflexivity.
Defined.

(** ** Purity *)



(** * Further properties of the code *)

(** ** The offset parser *)

(** X1. [_parse_tz] never raises, on any text: the digits it hands to [int]
    are always a number.  An offset it returns is a whole number of minutes
    from 0 up to 99 hours 99 minutes (4 days 16740 seconds), never negative;
    it returns none exactly when the text holds no piece of the shape.  A
    timezone written in Arabic-Indic digits is parsed like its ASCII
    form. *)
Theorem parse_tz_never_raises {number : Type}
    (unicode_decimal : string -> option Z) (tz : string)
    (self : Renderer number) :
  (exists offset,
      _parse_tz unicode_decimal tz self = (Ok offset, self)
      /\ match offset with
         | None => ~ contains_offset unicode_decimal tz
         | Some d =>
             contains_offset unicode_decimal tz
             /\ microseconds d = 0
             /\ 0 <= seconds d < 86400
             /\ 0 <= days d <= 4
             /\ 0 <= days d * 86400 + seconds d <= 362340
             /\ (days d * 86400 + seconds d) mod 60 = 0
         end)
  /\ _parse_tz Sample.arabic_indic "UTC+٠٣:٠٠" self
     = (Ok (Some (of_hours_minutes 3 0)), self).
Proof.
  split; [|reflexivity].
  destruct (Re.search unicode_decimal tz) as [mt|] eqn:Hs.
  - destruct (search_found _ tz mt Hs) as (pre & p & h & m & Hf & _).
    eexists. split; [exact (parse_tz_first _ pre tz p h m self Hf)|].
    pose proof Hf as [[Hc Hpost] _].
    destruct (piece_offset_range _ p h m Hc) as [Ra Rb].
    split.
    { exists pre, p, h, m. now destruct Hf. }
    unfold of_hours_minutes, of_seconds. cbn [days seconds microseconds].
    repeat split; Z.to_euclidean_division_equations; lia.
  - apply search_none in Hs. exists None.
    split; [now apply parse_tz_none | exact Hs].
Qed.

(** ** Failures of the time formatter and of [render] *)

(** X2. With an empty list of timezones [timezones[0]] raises: the time
    formatter raises [IndexError], and so does [render] unless a rate was out
    of range, which is found first. *)
Theorem render_without_timezone {number : Type}
    (unicode_decimal : string -> option Z)
    (format_number : number -> string)
    (tabulate : list (list (cell number)) -> list string -> string)
    (self : Renderer number) :
  _format_time unicode_decimal (set_timezones [] self)
  = (Err IndexError, set_timezones [] self)
  /\ render unicode_decimal format_number tabulate (set_timezones [] self)
     = (if forallb (fun item => fits_context (snd item))
                   (currency_rates (location_info self))
        then Err IndexError else Err InvalidOperation,
        set_timezones [] self).
Proof.
  assert (Ht : _format_time unicode_decimal (set_timezones [] self)
               = (Err IndexError, set_timezones [] self)) by reflexivity.
  split; [exact Ht|].
  pose proof (format_currency_rates_result (set_timezones [] self)) as Hc.
  cbn [set_timezones set_location location_info currency_rates] in Hc.
  destruct (forallb _ (currency_rates (location_info self))).
  - exact (render_time_error unicode_decimal format_number tabulate _ _ _
             Hc Ht).
  - exact (render_currency_error unicode_decimal format_number tabulate _ _
             Hc).
Qed.

(** X3. When the local time would fall after 9999-12-31 the addition
    overflows: the time formatter raises [OverflowError], and [render] raises
    it too when the rates are in range.  The offset is that of the first
    piece of the shape in the first timezone, in digits of any script. *)
Theorem format_time_overflows {number : Type}
    (unicode_decimal : string -> option Z)
    (format_number : number -> string)
    (tabulate : list (list (cell number)) -> list string -> string)
    (self : Renderer number) (pre tz : string) (rest : list string)
    (p : Piece) (h m : Z)
    (Hf : first_offset unicode_decimal pre tz p h m)
    (Hv : Datetime.valid (timestamp (location_info self)) = true)
    (Hr : representable (timestamp (location_info self)) (h * 3600 + m * 60)
          = false) :
  _format_time unicode_decimal (set_timezones (tz :: rest) self)
  = (Err OverflowError, set_timezones (tz :: rest) self)
  /\ (forallb (fun item => fits_context (snd item))
              (currency_rates (location_info self)) = true ->
      render unicode_decimal format_number tabulate
             (set_timezones (tz :: rest) self)
      = (Err OverflowError, set_timezones (tz :: rest) self)).
Proof.
  assert (Ht : _format_time unicode_decimal (set_timezones (tz :: rest) self)
               = (Err OverflowError, set_timezones (tz :: rest) self)).
  { rewrite (format_time_first unicode_decimal
               (set_timezones (tz :: rest) self)
               pre tz rest p h m eq_refl Hf).
    cbn [set_timezones set_location location_info timestamp].
    unfold of_hours_minutes. now rewrite (add_out_of_range _ _ Hv Hr). }
  split; [exact Ht|]. intros Hfit.
  pose proof (format_currency_rates_result (set_timezones (tz :: rest) self))
    as Hc.
  cbn [set_timezones set_location location_info currency_rates] in Hc.
  rewrite Hfit in Hc.
  exact (render_time_error unicode_decimal format_number tabulate _ _ _
           Hc Ht).
Qed.

(** One hour before the end of 9999, three hours ahead; the first piece
    with offset zero, written in Arabic-Indic digits, is not reached by an
    overflow. *)
Lemma format_time_overflows_witness :
  first_offset Sample.arabic_indic "" "UTC+03:00"
               (ascii_piece "+" "0" "3" "0" "0") 3 0
  /\ _format_time Sample.arabic_indic
       (set_timezones ["UTC+03:00"]
          (set_timestamp (Datetime.make 9999 12 31 23 0 0)
                         (Sample.renderer "UTC+03:00")))
     = (Err OverflowError,
        set_timezones ["UTC+03:00"]
          (set_timestamp (Datetime.make 9999 12 31 23 0 0)
                         (Sample.renderer "UTC+03:00")))
  /\ _format_time Sample.arabic_indic
       (set_timezones ["UTC+٠٠:٠٠UTC+03:00"]
          (set_timestamp (Datetime.make 9999 12 31 23 0 0)
                         (Sample.renderer "UTC+03:00")))
     = (Ok "23:00:00",
        set_timezones ["UTC+٠٠:٠٠UTC+03:00"]
          (set_timestamp (Datetime.make 9999 12 31 23 0 0)
                         (Sample.renderer "UTC+03:00"))).
Proof.
  split; [exact (first_offset_exact Sample.arabic_indic
                   "+" "0" "3" "0" "0" eq_refl)|].
  split; [|reflexivity].
  exact (proj1 (format_time_overflows Sample.arabic_indic str_Z Sample.plain
                  (set_timestamp (Datetime.make 9999 12 31 23 0 0)
                                 (Sample.renderer "UTC+03:00"))
                  "" "UTC+03:00" [] (ascii_piece "+" "0" "3" "0" "0") 3 0
                  (first_offset_exact Sample.arabic_indic
                     "+" "0" "3" "0" "0" eq_refl)
                  eq_refl eq_refl)).
Defined.

(** ** How [render] ends *)

Section OutcomeFacts.

Context {number : Type}.
Variable unicode_decimal : string -> option Z.
Variable format_number : number -> string.
Variable tabulate : list (list (cell number)) -> list string -> string.

(** The offset parsed from a text does not depend on the object. *)
Lemma parse_tz_same (tz : string) (s1 s2 : Renderer number) :
  fst (_parse_tz unicode_decimal tz s1) = fst (_parse_tz unicode_decimal tz s2).
Proof.
  destruct (Re.search unicode_decimal tz) as [mt|] eqn:Hs.
  - destruct (search_found _ tz mt Hs) as (pre & p & h & m & Hf & _).
    now rewrite (parse_tz_first _ pre tz p h m s1 Hf),
                (parse_tz_first _ pre tz p h m s2 Hf).
  - apply search_none in Hs.
    now rewrite (parse_tz_none _ tz s1 Hs), (parse_tz_none _ tz s2 Hs).
Qed.

(** The five ways [render] can end. *)
Lemma render_cases (self : Renderer number) :
  (forallb (fun item => fits_context (snd item))
           (currency_rates (location_info self)) = false
   /\ render unicode_decimal format_number tabulate self
      = (Err InvalidOperation, self))
  \/ (forallb (fun item => fits_context (snd item))
              (currency_rates (location_info self)) = true
      /\ ((timezones (location (location_info self)) = []
           /\ render unicode_decimal format_number tabulate self
              = (Err IndexError, self))
          \/ exists tz rest,
               timezones (location (location_info self)) = tz :: rest
               /\ ((~ contains_offset unicode_decimal tz
                    /\ render unicode_decimal format_number tabulate self
                       = (Err TypeError, self))
                   \/ (contains_offset unicode_decimal tz
                       /\ (render unicode_decimal format_number tabulate self
                           = (Err OverflowError, self)
                           \/ exists time,
                                _format_time unicode_decimal self
                                = (Ok time, self)
                                /\ render unicode_decimal format_number
                                          tabulate self
                                   = (Ok (split newline
                                            (tabulate
                                               (report_rows format_number
                                                  (location_info self)
                                                  (join ", "
                                                     (map language_entry
                                                        (languages
                                                           (location
                                                              (location_info self)))))
                                                  (replace "," "."
                                                     (format_comma
                                                        (population
                                                           (location
                                                              (location_info self)))))
                                                  (separated ", "
                                                     (map currency_entry
                                                        (currency_rates
                                                           (location_info self))))
                                                  time tz
                                                  (news_block
                                                     (news_list
                                                        (news (location_info self)))))
                                               ["Параметр"; "Значение"])),
                                      self)))))).
Proof.
  pose proof (format_currency_rates_result self) as Hc.
  destruct (forallb _ (currency_rates (location_info self))) eqn:Hfit.
  2:{ left. split; [reflexivity|].
      exact (render_currency_error unicode_decimal format_number tabulate
               self _ Hc). }
  right. split; [reflexivity|].
  destruct (timezones (location (location_info self))) as [|tz rest] eqn:Htz.
  { left. split; [reflexivity|].
    exact (render_time_error unicode_decimal format_number tabulate self _ _
             Hc (format_time_no_timezone unicode_decimal self Htz)). }
  right. exists tz, rest. split; [reflexivity|].
  destruct (parse_tz_total unicode_decimal tz self) as (offset & Hp & Hnone).
  pose proof (format_time_parsed unicode_decimal self tz rest offset Htz Hp)
    as Ht.
  destruct offset as [d|].
  - right. split.
    { destruct (Re.search unicode_decimal tz) as [mt|] eqn:Hs.
      - destruct (search_found _ tz _ Hs) as (pre & p & h & k & [Hat _] & _).
        now exists pre, p, h, k.
      - apply search_none in Hs. apply Hnone in Hs. discriminate. }
    unfold time_result, add_offset in Ht.
    destruct (Datetime.add (timestamp (location_info self)) d) as [t'|].
    + right. eexists. split; [exact Ht|].
      exact (render_ok unicode_decimal format_number tabulate self
               _ _ _ _ _ _ rest
               (format_languages_value self) (format_population_value self)
               Hc Ht Htz (format_news_value self)).
    + left. exact (render_time_error unicode_decimal format_number tabulate
                     self _ _ Hc Ht).
  - left. split; [now apply Hnone|].
    exact (render_time_error unicode_decimal format_number tabulate self _ _
             Hc Ht).
Qed.

End OutcomeFacts.


(** X5. Only the first timezone is used: records that differ in the later
    timezones alone give the same local time and the same result of
    [render]. *)
Theorem render_uses_first_timezone {number : Type}
    (unicode_decimal : string -> option Z)
    (format_number : number -> string)
    (tabulate : list (list (cell number)) -> list string -> string)
    (self : Renderer number) (tz : string) (rest rest' : list string) :
  fst (_format_time unicode_decimal (set_timezones (tz :: rest) self))
  = fst (_format_time unicode_decimal (set_timezones (tz :: rest') self))
  /\ fst (render unicode_decimal format_number tabulate
                 (set_timezones (tz :: rest) self))
     = fst (render unicode_decimal format_number tabulate
                   (set_timezones (tz :: rest') self)).
Proof.
  set (s1 := set_timezones (tz :: rest) self).
  set (s2 := set_timezones (tz :: rest') self).
  destruct (parse_tz_total unicode_decimal tz s1) as (o1 & Hp1 & _).
  destruct (parse_tz_total unicode_decimal tz s2) as (o2 & Hp2 & _).
  assert (Eo : o1 = o2).
  { pose proof (parse_tz_same unicode_decimal tz s1 s2) as E.
    rewrite Hp1, Hp2 in E. cbn [fst] in E. now injection E. }
  subst o2.
  pose proof (format_time_parsed unicode_decimal s1 tz rest o1 eq_refl Hp1)
    as Ht1.
  pose proof (format_time_parsed unicode_decimal s2 tz rest' o1 eq_refl Hp2)
    as Ht2.
  change (timestamp (location_info s1))
    with (timestamp (location_info self)) in Ht1.
  change (timestamp (location_info s2))
    with (timestamp (location_info self)) in Ht2.
  split; [now rewrite Ht1, Ht2|].
  pose proof (format_currency_rates_result s1) as Hc1.
  pose proof (format_currency_rates_result s2) as Hc2.
  change (currency_rates (location_info s1))
    with (currency_rates (location_info self)) in Hc1.
  change (currency_rates (location_info s2))
    with (currency_rates (location_info self)) in Hc2.
  destruct (forallb _ (currency_rates (location_info self))).
  - destruct (time_result (timestamp (location_info self)) o1) as [time | e].
    + rewrite (render_ok unicode_decimal format_number tabulate s1
                 _ _ _ _ _ _ rest
                 (format_languages_value s1) (format_population_value s1)
                 Hc1 Ht1 eq_refl (format_news_value s1)).
      rewrite (render_ok unicode_decimal format_number tabulate s2
                 _ _ _ _ _ _ rest'
                 (format_languages_value s2) (format_population_value s2)
                 Hc2 Ht2 eq_refl (format_news_value s2)).
      reflexivity.
    + now rewrite (render_time_error unicode_decimal format_number tabulate
                     s1 _ _ Hc1 Ht1),
                  (render_time_error unicode_decimal format_number tabulate
                     s2 _ _ Hc2 Ht2).
  - now rewrite (render_currency_error unicode_decimal format_number tabulate
                   s1 _ Hc1),
                (render_currency_error unicode_decimal format_number tabulate
                   s2 _ Hc2).
Qed.

(** ** The fields of the local time *)

(** X6. The local time is read off the clock fields of the timestamp alone,
    neither its date nor its microseconds: the seconds are those of the
    timestamp, the minutes are its minutes plus MM modulo 60, and the hours
    are its hours plus HH plus the carry of the minutes, modulo 24, where
    HH and MM are the numbers of the first piece of the shape in the first
    timezone, in digits of any script. *)
Theorem format_time_fields {number : Type}
    (unicode_decimal : string -> option Z) (self : Renderer number)
    (pre tz : string) (rest : list string) (p : Piece) (h m : Z)
    (Hf : first_offset unicode_decimal pre tz p h m)
    (Hv : Datetime.valid (timestamp (location_info self)) = true)
    (Hr : representable (timestamp (location_info self)) (h * 3600 + m * 60)
          = true) :
  _format_time unicode_decimal (set_timezones (tz :: rest) self)
  = (Ok (two ((hour (timestamp (location_info self)) + h
               + (minute (timestamp (location_info self)) + m) / 60) mod 24)
           ++ ":"
           ++ two ((minute (timestamp (location_info self)) + m) mod 60)
           ++ ":"
           ++ two (second (timestamp (location_info self)))),
     set_timezones (tz :: rest) self).
Proof.
  rewrite (format_time_clock unicode_decimal (set_timezones (tz :: rest) self)
             pre tz rest p h m eq_refl Hf Hv Hr).
  cbn [set_timezones set_location location_info timestamp].
  pose proof Hf as [[Hc _] _].
  destruct (piece_offset_range _ p h m Hc) as [Ra Rb].
  unfold Datetime.valid in Hv.
  repeat (apply andb_prop in Hv; destruct Hv as [Hv ?]).
  repeat match goal with
         | H : (_ <=? _)%Z = true |- _ => apply Z.leb_le in H
         | H : (_ <? _)%Z = true |- _ => apply Z.ltb_lt in H
         end.
  unfold clock, local_second, second_of_day.
  set (t := timestamp (location_info self)) in *.
  set (hh := hour t) in *. set (mm := minute t) in *. set (ss := second t) in *.
  clearbody hh mm ss.
  assert (E1 : ((hh * 3600 + mm * 60 + ss + (h * 3600 + m * 60)) mod 86400)
               / 3600 = (hh + h + (mm + m) / 60) mod 24)
    by (Z.to_euclidean_division_equations; lia).
  assert (E2 : (((hh * 3600 + mm * 60 + ss + (h * 3600 + m * 60)) mod 86400)
                / 60) mod 60 = (mm + m) mod 60)
    by (Z.to_euclidean_division_equations; lia).
  assert (E3 : ((hh * 3600 + mm * 60 + ss + (h * 3600 + m * 60)) mod 86400)
               mod 60 = ss)
    by (Z.to_euclidean_division_equations; lia).
  now rewrite E1, E2, E3.
Qed.

(** 23:59:07 on the example date, one hour and one minute ahead, the
    timezone written in Arabic-Indic digits. *)
Lemma format_time_fields_witness :
  first_offset Sample.arabic_indic "" "UTC+٠١:٠١" Sample.one_one 1 1
  /\ _format_time Sample.arabic_indic
       (set_timezones ["UTC+٠١:٠١"]
          (set_timestamp (Datetime.make 2023 1 1 23 59 7)
                         (Sample.renderer "UTC+01:01")))
     = (Ok "01:00:07",
        set_timezones ["UTC+٠١:٠١"]
          (set_timestamp (Datetime.make 2023 1 1 23 59 7)
                         (Sample.renderer "UTC+01:01"))).
Proof.
  assert (Hf : first_offset Sample.arabic_indic "" "UTC+٠١:٠١"
                 Sample.one_one 1 1).
  { split; [split; [reflexivity | now exists ""]|]. intros. simpl. lia. }
  split; [exact Hf|].
  exact (format_time_fields Sample.arabic_indic
           (set_timestamp (Datetime.make 2023 1 1 23 59 7)
                          (Sample.renderer "UTC+01:01"))
           "" "UTC+٠١:٠١" [] Sample.one_one 1 1 Hf eq_refl eq_refl).
Defined.

(** ** Negative populations *)

(** X7. A negative population keeps its minus sign in front of the grouped
    digits: the text for [n < 0] is ["-"] followed by the text for [-n]. *)
Theorem format_population_negative {number : Type} (self : Renderer number)
    (n : Z) (Hn : n < 0) :
  exists s,
    _format_population (set_population (- n) self)
    = (Ok s, set_population (- n) self)
    /\ _format_population (set_population n self)
       = (Ok ("-" ++ s), set_population n self).
Proof.
  eexists. split; [reflexivity|].
  unfold _format_population, bind, get_location_info, ret.
  cbn [set_population set_location location_info location population].
  unfold format_comma.
  destruct (Z.ltb_spec n 0) as [_ | ?]; [|lia].
  destruct (Z.ltb_spec (- n) 0) as [? | _]; [lia|].
  rewrite Zabs2N.inj_opp. reflexivity.
Qed.

(** Minus 1234567. *)
Lemma format_population_negative_witness :
  -1234567 < 0
  /\ _format_population
       (set_population (-1234567) (Sample.renderer "UTC+03:00"))
     = (Ok "-1.234.567",
        set_population (-1234567) (Sample.renderer "UTC+03:00")).
Proof.
  split; [lia|].
  destruct (format_population_negative (Sample.renderer "UTC+03:00")
              (-1234567) ltac:(lia)) as (s & H1 & H2).
  rewrite H2. cbv in H1. injection H1 as H1. now rewrite <- H1.
Defined.

(** ** Growing lists *)

Section AppendFacts.

Lemma news_lines_snoc (items : list NewsDTO) (item : NewsDTO) (n : Z) :
  news_lines n (items ++ [item])
  = news_lines n items
      ++ news_line (n + Z.of_nat (List.length items)) item.
Proof.
  revert n. induction items as [|x items IH]; intros n.
  - cbn [List.app news_lines List.length]. rewrite Z.add_0_r.
    now rewrite append_nil_r.
  - cbn [List.app news_lines List.length]. rewrite IH, append_assoc.
    replace (n + 1 + Z.of_nat (List.length items))
      with (n + Z.of_nat (S (List.length items))) by lia.
    reflexivity.
Qed.

Lemma separated_app (sep : string) (a b : list string) :
  a <> [] -> b <> [] ->
  separated sep (a ++ b) = separated sep a ++ sep ++ separated sep b.
Proof.
  intros Ha Hb. induction a as [|x a IH]; [congruence|].
  destruct a as [|y a].
  - destruct b as [|z b]; [congruence | reflexivity].
  - change (separated sep ((x :: y :: a) ++ b))
      with (x ++ sep ++ separated sep ((y :: a) ++ b)).
    rewrite IH by discriminate.
    change (separated sep (x :: y :: a))
      with (x ++ sep ++ separated sep (y :: a)).
    now rewrite !append_assoc.
Qed.

Lemma forallb_false_exists {A : Type} (p : A -> bool) (l : list A) :
  forallb p l = false <-> exists x, In x l /\ p x = false.
Proof.
  induction l as [|a l IH]; cbn [forallb].
  - split; [discriminate | intros (x & [] & _)].
  - rewrite andb_false_iff, IH. split.
    + intros [H | (x & Hin & H)].
      * exists a. split; [now left | exact H].
      * exists x. split; [now right | exact H].
    + intros (x & [E | Hin] & H).
      * subst x. now left.
      * right. now exists x.
Qed.

End AppendFacts.

(** X8. One more news item adds one line at the end and leaves the block
    before it as it was; the new line carries the next number.  With no news
    the block is a single newline. *)
Theorem format_news_appends {number : Type} (self : Renderer number)
    (items : list NewsDTO) (item : NewsDTO) :
  (exists block,
      _format_news (set_news items self) = (Ok block, set_news items self)
      /\ _format_news (set_news (items ++ [item]) self)
         = (Ok (block
                  ++ news_line (Z.of_nat (List.length items) + 1) item),
            set_news (items ++ [item]) self))
  /\ _format_news (set_news [] self)
     = (Ok (String newline ""), set_news [] self).
Proof.
  split; [|reflexivity].
  exists (news_block items). split.
  - exact (format_news_value (set_news items self)).
  - rewrite (format_news_value (set_news (items ++ [item]) self)).
    cbn [set_news location_info news news_list]. unfold news_block.
    rewrite news_lines_snoc. cbn [String.append].
    replace (1 + Z.of_nat (List.length items))
      with (Z.of_nat (List.length items) + 1) by lia.
    reflexivity.
Qed.

(** X9. The languages of two non-empty lists put one after the other are
    the two texts with [", "] between them. *)
Theorem format_languages_concat {number : Type} (self : Renderer number)
    (first second : list LanguagesInfoDTO)
    (Ha : first <> []) (Hb : second <> []) :
  exists s t,
    _format_languages (set_languages first self)
    = (Ok s, set_languages first self)
    /\ _format_languages (set_languages second self)
       = (Ok t, set_languages second self)
    /\ _format_languages (set_languages (first ++ second) self)
       = (Ok (s ++ ", " ++ t), set_languages (first ++ second) self).
Proof.
  do 2 eexists. split; [reflexivity|]. split; [reflexivity|].
  rewrite !format_languages_value.
  cbn [set_languages set_location location_info location languages].
  rewrite !join_separated, map_app.
  rewrite separated_app; [reflexivity| |].
  - destruct first; [congruence | discriminate].
  - destruct second; [congruence | discriminate].
Qed.

(** English, then Spanish. *)
Lemma format_languages_concat_witness :
  [Sample.english] <> [] /\ [Sample.spanish] <> []
  /\ _format_languages
       (set_languages ([Sample.english] ++ [Sample.spanish])
                      (Sample.renderer "UTC+03:00"))
     = (Ok ("English (English)" ++ ", " ++ "Spanish (Español)"),
        set_languages ([Sample.english] ++ [Sample.spanish])
                      (Sample.renderer "UTC+03:00")).
Proof.
  split; [discriminate|]. split; [discriminate|].
  destruct (format_languages_concat (Sample.renderer "UTC+03:00")
              [Sample.english] [Sample.spanish]
              ltac:(discriminate) ltac:(discriminate))
    as (s & t & H1 & H2 & H).
  rewrite H. cbv in H1, H2. injection H1 as H1. injection H2 as H2.
  now rewrite <- H1, <- H2.
Defined.

(** ** All rates or none *)

(** X10. The currency formatter returns a text or raises, nothing between:
    it raises exactly when some rate of the mapping is out of the range of
    the decimal context, wherever that rate stands, and the only error it
    raises is [InvalidOperation].  An empty mapping gives the empty text. *)
Theorem format_currency_rates_all_or_nothing {number : Type}
    (self : Renderer number) :
  (fst (_format_currency_rates self) = Err InvalidOperation
   <-> exists item,
         In item (currency_rates (location_info self))
         /\ fits_context (snd item) = false)
  /\ (is_ok (fst (_format_currency_rates self)) = true
      <-> forall item,
            In item (currency_rates (location_info self)) ->
            fits_context (snd item) = true)
  /\ (forall e, fst (_format_currency_rates self) = Err e ->
                e = InvalidOperation)
  /\ _format_currency_rates (set_currency_rates [] self)
     = (Ok "", set_currency_rates [] self).
Proof.
  rewrite format_currency_rates_result. cbn [fst].
  split; [|split; [|split; [|reflexivity]]].
  - rewrite <- forallb_false_exists.
    destruct (forallb _ _); split; congruence.
  - rewrite <- forallb_forall.
    destruct (forallb _ _); split; cbn [is_ok]; congruence.
  - intros e. destruct (forallb _ _); congruence.
Qed.

(** ** What the rounding keeps *)

Section RoundingFacts.

Lemma half_up_cents_close (d : Decimal) :
  (inject_Z (half_up_cents d) - (1 # 2) <= magnitude d * inject_Z 100)%Q
  /\ (magnitude d * inject_Z 100 < inject_Z (half_up_cents d) + (1 # 2))%Q.
Proof.
  unfold half_up_cents.
  set (y := (magnitude d * inject_Z 100)%Q).
  pose proof (Qfloor_le (y + (1 # 2))) as Hlo.
  pose proof (Qlt_floor (y + (1 # 2))) as Hhi.
  rewrite inject_Z_plus in Hhi. change (inject_Z 1) with 1%Q in Hhi.
  set (c := inject_Z (Qfloor (y + (1 # 2)))) in *.
  clearbody c y. split; lra.
Qed.

Lemma half_up_cents_mono (d1 d2 : Decimal) :
  (magnitude d1 <= magnitude d2)%Q -> half_up_cents d1 <= half_up_cents d2.
Proof.
  intros H. unfold half_up_cents. apply Qfloor_resp_le.
  change (inject_Z 100) with (100 # 1)%Q.
  set (a := magnitude d1) in *. set (b := magnitude d2) in *.
  clearbody a b. lra.
Qed.

(** With two decimal places or fewer the hundredths are the coefficient
    with zeros appended. *)
Lemma half_up_cents_padded (d : Decimal) :
  -2 <= exp d ->
  Z.to_N (half_up_cents d) = (coeff d * 10 ^ Z.to_N (exp d + 2))%N.
Proof.
  intros He. pose proof (rescale_cents d) as Hr. unfold rescale in Hr.
  destruct (N.eqb_spec (coeff d) 0) as [H0 | H0].
  - injection Hr as Hr. rewrite <- Hr, H0. reflexivity.
  - destruct (Z.leb_spec (-2) (exp d)) as [_ | ?]; [|lia].
    injection Hr as Hr. rewrite <- Hr.
    replace (exp d - -2) with (exp d + 2) by lia. reflexivity.
Qed.

End RoundingFacts.

(** X11. A rate with two decimal places or fewer is rendered exactly, with
    zeros filled in and nothing rounded away: the hundredths shown are the
    coefficient times [10^(exp+2)].  A whole number gets [.00]. *)
Theorem format_currency_rates_exact {number : Type} (self : Renderer number)
    (code : string) (d : Decimal)
    (He : -2 <= exp d) (Hfit : fits_context d = true) :
  _format_currency_rates (set_currency_rates [(code, d)] self)
  = (Ok (code ++ " = " ++ (if sign d then "-" else "")
              ++ str_N (coeff d * 10 ^ Z.to_N (exp d + 2) / 100) ++ "."
              ++ String (digit_char
                           ((coeff d * 10 ^ Z.to_N (exp d + 2) / 10) mod 10))
                   (String (digit_char
                              ((coeff d * 10 ^ Z.to_N (exp d + 2)) mod 10)) "")
              ++ " руб."),
     set_currency_rates [(code, d)] self)
  /\ (exp d = 0 ->
      _format_currency_rates (set_currency_rates [(code, d)] self)
      = (Ok (code ++ " = " ++ (if sign d then "-" else "")
                  ++ str_N (coeff d) ++ ".00" ++ " руб."),
         set_currency_rates [(code, d)] self)).
Proof.
  assert (E : _format_currency_rates (set_currency_rates [(code, d)] self)
              = (Ok (code ++ " = "
                       ++ to_str {| sign := sign d;
                                    coeff := (coeff d
                                              * 10 ^ Z.to_N (exp d + 2))%N;
                                    exp := -2 |}
                       ++ " руб."),
                 set_currency_rates [(code, d)] self)).
  { rewrite format_currency_rates_result.
    cbn [set_currency_rates location_info currency_rates forallb snd].
    rewrite Hfit. cbn [andb map separated].
    unfold currency_entry. cbn [fst snd].
    rewrite <- to_str_two_places, half_up_cents_padded by exact He.
    reflexivity. }
  rewrite E, to_str_cents. split.
  - now rewrite !append_assoc.
  - intros H0. rewrite H0. change (Z.to_N (0 + 2)) with 2%N.
    change (10 ^ 2)%N with 100%N.
    rewrite N.div_mul by discriminate.
    replace ((coeff d * 100 / 10) mod 10)%N with 0%N.
    2:{ replace (coeff d * 100)%N with (coeff d * 10 * 10)%N by lia.
        rewrite N.div_mul by discriminate.
        now rewrite N.Div0.mod_mul. }
    replace ((coeff d * 100) mod 10)%N with 0%N.
    2:{ replace (coeff d * 100)%N with (coeff d * 10 * 10)%N by lia.
        now rewrite N.Div0.mod_mul. }
    now rewrite !append_assoc.
Qed.

(** The rate 75.5 of one currency. *)
Lemma format_currency_rates_exact_witness :
  -2 <= exp (Sample.dec 755 (-1))
  /\ fits_context (Sample.dec 755 (-1)) = true
  /\ _format_currency_rates
       (set_currency_rates [("USD", Sample.dec 755 (-1))]
                           (Sample.renderer "UTC+03:00"))
     = (Ok "USD = 75.50 руб.",
        set_currency_rates [("USD", Sample.dec 755 (-1))]
                           (Sample.renderer "UTC+03:00")).
Proof.
  split; [cbn; lia|]. split; [reflexivity|].
  exact (proj1 (format_currency_rates_exact (Sample.renderer "UTC+03:00")
                  "USD" (Sample.dec 755 (-1)) ltac:(cbn; lia) eq_refl)).
Defined.

(** X12. The amount shown for a rate in range is the nearest hundredth: it
    has two decimal places and the sign of the rate, and the rate's
    magnitude in hundredths lies from half a hundredth below it (included)
    to half a hundredth above it (excluded). *)
Theorem format_currency_rates_nearest {number : Type} (self : Renderer number)
    (code : string) (d : Decimal) (Hfit : fits_context d = true) :
  exists q : N,
    _format_currency_rates (set_currency_rates [(code, d)] self)
    = (Ok (code ++ " = "
             ++ to_str {| sign := sign d; coeff := q; exp := -2 |}
             ++ " руб."),
       set_currency_rates [(code, d)] self)
    /\ (inject_Z (Z.of_N q) - (1 # 2) <= magnitude d * inject_Z 100)%Q
    /\ (magnitude d * inject_Z 100 < inject_Z (Z.of_N q) + (1 # 2))%Q.
Proof.
  exists (Z.to_N (half_up_cents d)).
  rewrite Z2N.id by apply half_up_cents_nonneg.
  split; [|apply half_up_cents_close].
  rewrite format_currency_rates_result.
  cbn [set_currency_rates location_info currency_rates forallb snd].
  rewrite Hfit. cbn [andb map separated].
  unfold currency_entry. cbn [fst snd].
  now rewrite <- to_str_two_places.
Qed.

(** The rate 2.005. *)
Lemma format_currency_rates_nearest_witness :
  fits_context (Sample.dec 2005 (-3)) = true
  /\ exists q : N,
       _format_currency_rates
         (set_currency_rates [("USD", Sample.dec 2005 (-3))]
                             (Sample.renderer "UTC+03:00"))
       = (Ok ("USD" ++ " = "
                ++ to_str {| sign := false; coeff := q; exp := -2 |}
                ++ " руб."),
          set_currency_rates [("USD", Sample.dec 2005 (-3))]
                             (Sample.renderer "UTC+03:00")).
Proof.
  split; [reflexivity|].
  destruct (format_currency_rates_nearest (Sample.renderer "UTC+03:00")
              "USD" (Sample.dec 2005 (-3)) eq_refl) as (q & H & _).
  exists q. exact H.
Defined.

(** X13. Rounding keeps the order of rates: of two rates in range the one
    with the larger magnitude is never shown with fewer hundredths. *)
Theorem format_currency_rates_keeps_order {number : Type}
    (self : Renderer number) (c1 c2 : string) (d1 d2 : Decimal)
    (H1 : fits_context d1 = true) (H2 : fits_context d2 = true)
    (Hle : (magnitude d1 <= magnitude d2)%Q) :
  exists q1 q2 : N,
    _format_currency_rates (set_currency_rates [(c1, d1); (c2, d2)] self)
    = (Ok ((c1 ++ " = "
               ++ to_str {| sign := sign d1; coeff := q1; exp := -2 |}
               ++ " руб.")
           ++ ", "
           ++ (c2 ++ " = "
                  ++ to_str {| sign := sign d2; coeff := q2; exp := -2 |}
                  ++ " руб.")),
       set_currency_rates [(c1, d1); (c2, d2)] self)
    /\ (q1 <= q2)%N.
Proof.
  exists (Z.to_N (half_up_cents d1)), (Z.to_N (half_up_cents d2)). split.
  - rewrite format_currency_rates_result.
    cbn [set_currency_rates location_info currency_rates forallb snd].
    rewrite H1, H2. cbn [andb map separated].
    unfold currency_entry. cbn [fst snd].
    now rewrite <- !to_str_two_places.
  - apply Z2N.inj_le; try apply half_up_cents_nonneg.
    now apply half_up_cents_mono.
Qed.

(** 2.004 and 2.005. *)
Lemma format_currency_rates_keeps_order_witness :
  fits_context (Sample.dec 2004 (-3)) = true
  /\ fits_context (Sample.dec 2005 (-3)) = true
  /\ (magnitude (Sample.dec 2004 (-3)) <= magnitude (Sample.dec 2005 (-3)))%Q
  /\ exists q1 q2 : N,
       fst (_format_currency_rates
              (set_currency_rates
                 [("USD", Sample.dec 2004 (-3)); ("EUR", Sample.dec 2005 (-3))]
                 (Sample.renderer "UTC+03:00")))
       = Ok (("USD" ++ " = "
                ++ to_str {| sign := false; coeff := q1; exp := -2 |}
                ++ " руб.")
             ++ ", "
             ++ ("EUR" ++ " = "
                   ++ to_str {| sign := false; coeff := q2; exp := -2 |}
                   ++ " руб."))
       /\ (q1 <= q2)%N.
Proof.
  assert (Hle : (magnitude (Sample.dec 2004 (-3))
                 <= magnitude (Sample.dec 2005 (-3)))%Q).
  { unfold Qle. cbn. lia. }
  split; [reflexivity|]. split; [reflexivity|]. split; [exact Hle|].
  destruct (format_currency_rates_keeps_order (Sample.renderer "UTC+03:00")
              "USD" "EUR" (Sample.dec 2004 (-3)) (Sample.dec 2005 (-3))
              eq_refl eq_refl Hle) as (q1 & q2 & A & B).
  exists q1, q2. split; [now rewrite A | exact B].
Defined.

(** ** The lines of the report *)

Section LineFacts.

Lemma split_nonempty (sep : ascii) (s : string) : split sep s <> [].
Proof.
  destruct s as [|c r]; cbn [split]; [discriminate|].
  destruct (Ascii.eqb c sep); [discriminate|].
  destruct (split sep r); discriminate.
Qed.

Lemma split_no_separator (sep : ascii) (s : string) :
  Forall (fun line => mem_char sep line = false) (split sep s).
Proof.
  induction s as [|c r IH]; cbn [split].
  - constructor; [reflexivity | constructor].
  - destruct (Ascii.eqb c sep) eqn:E.
    + constructor; [reflexivity | exact IH].
    + destruct (split sep r) as [|h t].
      * constructor; [|constructor]. cbn [mem_char].
        now rewrite Ascii.eqb_sym, E.
      * inversion IH as [|? ? Hh Ht]; subst.
        constructor; [|exact Ht]. cbn [mem_char].
        now rewrite Ascii.eqb_sym, E.
Qed.

Lemma join_head (sep p x : string) (rest : list string) :
  join sep ((p ++ x) :: rest) = p ++ join sep (x :: rest).
Proof. unfold join. apply fold_step_app. Qed.

(** Joining what [split] gives brings the text back. *)
Lemma join_split (sep : ascii) (s : string) :
  join (String sep "") (split sep s) = s.
Proof.
  induction s as [|c r IH]; cbn [split]; [reflexivity|].
  destruct (Ascii.eqb_spec c sep) as [E | E].
  - subst c. destruct (split sep r) as [|h t] eqn:Es.
    + now apply split_nonempty in Es.
    + rewrite join_cons_cons, IH. reflexivity.
  - destruct (split sep r) as [|h t] eqn:Es.
    + now apply split_nonempty in Es.
    + change (String c h) with (String c "" ++ h).
      rewrite join_head, IH. reflexivity.
Qed.

End LineFacts.

(** X14. The lines [render] returns are the table text cut at its newlines
    and nothing is lost: there is at least one line, no line holds a
    newline, and the lines joined by newlines are again the text [tabulate]
    made from the fourteen rows of the record: the languages, the grouped
    population, the rounded rates, the clock of the timestamp moved by the
    offset of the first piece of the first timezone, and the news block. *)
Theorem render_lines {number : Type}
    (unicode_decimal : string -> option Z)
    (format_number : number -> string)
    (tabulate : list (list (cell number)) -> list string -> string)
    (li : LocationInfoDTO number) (lines : list string)
    (H : fst (render unicode_decimal format_number tabulate (__init__ li))
         = Ok lines) :
  lines <> []
  /\ Forall (fun line => mem_char newline line = false) lines
  /\ exists (tz : string) (rest : list string) (pre : string) (p : Piece)
            (h m : Z) (local : datetime),
       timezones (location li) = tz :: rest
       /\ first_offset unicode_decimal pre tz p h m
       /\ Datetime.add (timestamp li) (of_hours_minutes h m) = Some local
       /\ join (String newline "") lines
          = tabulate
              (report_rows format_number li
                 (separated ", " (map language_entry (languages (location li))))
                 (replace "," "." (format_comma (population (location li))))
                 (separated ", " (map currency_entry (currency_rates li)))
                 (strftime_HMS local) tz
                 (news_block (news_list (news li))))
              ["Параметр"; "Значение"].
Proof.
  destruct (render_cases unicode_decimal format_number tabulate (__init__ li))
    as [[_ Hr] | [_ [[_ Hr] | (tz & rest & Htz & [[_ Hr]
                                 | [Hc [Hr | (time & Ht & Hr)]]])]]];
    rewrite Hr in H; cbn [fst] in H; try discriminate.
  injection H as H. subst lines.
  split; [apply split_nonempty|]. split; [apply split_no_separator|].
  destruct (contains_first _ tz Hc) as (pre & p & h & m & Hf).
  rewrite (format_time_first unicode_decimal (__init__ li) pre tz rest p h m
             Htz Hf) in Ht.
  cbn [__init__ location_info] in *.
  destruct (Datetime.add (timestamp li) (of_hours_minutes h m)) as [local|]
    eqn:Ea; [|discriminate].
  injection Ht as Ht. subst time.
  exists tz, rest, pre, p, h, m, local.
  split; [exact Htz|]. split; [exact Hf|]. split; [exact Ea|].
  rewrite join_split, join_separated. reflexivity.
Qed.

(** The example record. *)
Lemma render_lines_witness :
  exists lines,
    fst (render Sample.arabic_indic str_Z Sample.plain
                (__init__ (location_info (Sample.renderer "UTC+03:00"))))
    = Ok lines
    /\ lines <> [].
Proof.
  eexists. split; [reflexivity|].
  exact (proj1 (render_lines Sample.arabic_indic str_Z Sample.plain
                  (location_info (Sample.renderer "UTC+03:00")) _ eq_refl)).
Defined.

(** ** Reading the population back *)

Section ReadBackFacts.

Lemma filter_group_rev (ds : list ascii) :
  forall k, filter is_digit (group_rev k ds) = filter is_digit ds.
Proof.
  induction ds as [|d r IH]; intros k; [reflexivity|].
  destruct k as [|k]; cbn [group_rev filter].
  - change (is_digit ",") with false. cbv iota. now rewrite IH.
  - now rewrite IH.
Qed.

Lemma filter_digits_all (l : list ascii) :
  forallb is_digit l = true -> filter is_digit l = l.
Proof.
  induction l as [|c l IH]; cbn [forallb filter]; [reflexivity|].
  intros H. apply andb_prop in H. destruct H as [Hc Hl].
  now rewrite Hc, IH.
Qed.

Lemma filter_replace (s : string) :
  filter is_digit (chars (replace "," "." s)) = filter is_digit (chars s).
Proof.
  unfold chars. induction s as [|c s IH]; [reflexivity|].
  cbn [replace list_ascii_of_string filter]. rewrite IH.
  destruct (Ascii.eqb_spec c ","); [subst c; reflexivity | reflexivity].
Qed.

(** The digits of the formatted population are those of its magnitude. *)
Lemma population_digits (n : Z) :
  filter is_digit (chars (replace "," "." (format_comma n)))
  = chars (str_N (Z.abs_N n)).
Proof.
  rewrite filter_replace. unfold format_comma. rewrite chars_app.
  rewrite filter_app.
  replace (filter is_digit (chars (if (n <? 0)%Z then "-" else "")))
    with (@nil ascii) by (destruct (n <? 0)%Z; reflexivity).
  cbn [List.app]. unfold insert_thousands.
  unfold chars at 1, text. rewrite list_ascii_of_string_of_list_ascii.
  rewrite filter_rev, filter_group_rev, filter_rev, rev_involutive.
  apply filter_digits_all. apply str_N_digits.
Qed.

Lemma int_digits_app (s t : string) :
  forall acc,
    int_digits acc (s ++ t)
    = match int_digits acc s with
      | Some v => int_digits v t
      | None => None
      end.
Proof.
  induction s as [|c s IH]; intros acc; cbn [String.append int_digits];
    [reflexivity|].
  destruct (is_digit c); [apply IH | reflexivity].
Qed.

(** [int(str(n))] is [n]. *)
Lemma int_digits_str_N (n : N) : int_digits 0 (str_N n) = Some (Z.of_N n).
Proof.
  apply (str_N_ind (fun n s => int_digits 0 s = Some (Z.of_N n))).
  - intros k Hk. cbn [int_digits].
    rewrite is_digit_digit_char, digit_value_digit_char by exact Hk.
    f_equal; lia.
  - intros k Hk IH. rewrite int_digits_app, IH. cbn [int_digits].
    assert (Hm : (k mod 10 < 10)%N) by (apply N.mod_lt; discriminate).
    rewrite is_digit_digit_char, digit_value_digit_char by exact Hm.
    f_equal. rewrite N2Z.inj_div, N2Z.inj_mod. change (Z.of_N 10) with 10.
    symmetry. apply Z.div_mod. lia.
Qed.

Lemma str_N_inj (a b : N) : str_N a = str_N b -> a = b.
Proof.
  intros E. pose proof (int_digits_str_N a) as Ha.
  rewrite E, int_digits_str_N in Ha. injection Ha as Ha. lia.
Qed.

End ReadBackFacts.

(** X15. The population can be read back from its text: different integers
    never get the same text, negative ones included. *)
Theorem format_population_injective {number : Type} (self : Renderer number)
    (n m : Z) (Hne : n <> m) :
  fst (_format_population (set_population n self))
  <> fst (_format_population (set_population m self)).
Proof.
  change (fst (_format_population (set_population n self)))
    with (Ok (replace "," "." (format_comma n))).
  change (fst (_format_population (set_population m self)))
    with (Ok (replace "," "." (format_comma m))).
  intros E. injection E as E.
  assert (Habs : Z.abs_N n = Z.abs_N m).
  { apply str_N_inj.
    rewrite <- (text_chars (str_N (Z.abs_N n))),
            <- (text_chars (str_N (Z.abs_N m))).
    now rewrite <- !population_digits, E. }
  unfold format_comma in E. rewrite Habs in E.
  destruct (Z.ltb_spec n 0) as [Hn | Hn];
    destruct (Z.ltb_spec m 0) as [Hm | Hm]; try lia;
    apply (f_equal String.length) in E; cbn in E; lia.
Qed.

(** 1234567 and 1234568. *)
Lemma format_population_injective_witness :
  1234567 <> 1234568
  /\ fst (_format_population
            (set_population 1234567 (Sample.renderer "UTC+03:00")))
     <> fst (_format_population
               (set_population 1234568 (Sample.renderer "UTC+03:00"))).
Proof.
  split; [lia|].
  apply (format_population_injective (Sample.renderer "UTC+03:00")). lia.
Defined.
